(** * StreetEats backend ([server.js]): account verification and grievance ledger

    A shallow embedding of the Express handlers of [server.js] over an explicit
    state: the MongoDB collections (as lists in natural order) and the upload
    directory (as a finite map from paths to file contents).  The behaviour of
    the libraries the handlers call (Mongoose casting and validation, Node's
    [fs] and [Buffer]) is written out next to the handlers that rely on it. *)

From Stdlib Require Import ZArith NArith List String Ascii Lia.
From Stdlib Require Import Init.Byte DecimalString DecimalPos DecimalZ.
From Stdlib Require Import Sorting.Sorted Sorting.Permutation.
From stdpp Require Import gmap strings list.

Local Open Scope string_scope.
Local Open Scope list_scope.

(** ** JSON values of a request body *)

(** The numbers of this model are the safe integers,
    [Number.MIN_SAFE_INTEGER .. Number.MAX_SAFE_INTEGER]: the integers that
    [JSON.parse] reads exactly and that [String] prints as their decimal
    expansion. *)
Definition MAX_SAFE_INTEGER : Z := 9007199254740991.

Definition isSafeInteger (n : Z) : bool := (Z.abs n <=? MAX_SAFE_INTEGER)%Z.

Record safe_integer : Type := SafeInteger {
  integer :> Z;
  integer_safe : Is_true (isSafeInteger integer)
}.

Global Instance safe_integer_eq_dec : EqDecision safe_integer.
Proof.
  intros [a Ha] [b Hb]. destruct (decide (a = b)) as [Heq|Hne].
  - left. subst b. f_equal. apply proof_irrel.
  - right. intros [= Heq]. by apply Hne.
Defined.

(** A field of [req.body].  Every schema path of this program is a scalar, and
    so are the fields here: null, a boolean, a number (a safe integer) or a
    string.  A field that holds an array, an object or another number is
    outside this model. *)
Inductive jval : Type :=
| JNull
| JBool (b : bool)
| JNum (n : safe_integer)
| JStr (s : string).

Global Instance jval_eq_dec : EqDecision jval.
Proof. solve_decision. Defined.

(** A request body or query: a JavaScript object used as a map; a field that is
    absent reads as [undefined], here [None].  The fields read are those of
    the schemas and [_id]; a body that sets the version key [__v] of a
    document is outside this model. *)
Abbreviation jobject := (gmap string jval).

(** JavaScript truthiness, as tested by [!x] and [x && ...]. *)
Definition truthy (v : option jval) : bool :=
  match v with
  | None | Some JNull => false
  | Some (JBool b) => b
  | Some (JNum n) => negb (n =? 0)%Z
  | Some (JStr s) => negb (String.eqb s "")
  end.

(** ** Base64, as produced by [Buffer.prototype.toString('base64')] *)

Module Base64.

Local Open Scope N_scope.

Definition alphabet : string :=
  "ABCDEFGHIJKLMNOPQRSTUVWXYZabcdefghijklmnopqrstuvwxyz0123456789+/".

(** The character of a sextet. *)
Definition char_of (n : N) : ascii :=
  match String.get (N.to_nat n) alphabet with
  | Some c => c
  | None => "="%char
  end.

(** The sextet of a character of the alphabet. *)
Definition val_of (c : ascii) : option N :=
  let k := N_of_ascii c in
  if (65 <=? k) && (k <=? 90) then Some (k - 65)
  else if (97 <=? k) && (k <=? 122) then Some (k - 71)
  else if (48 <=? k) && (k <=? 57) then Some (k + 4)
  else if k =? 43 then Some 62
  else if k =? 47 then Some 63
  else None.

(** Three bytes give four sextets; a last group of one or two bytes is padded
    with [=]. *)
Fixpoint encode (bs : list byte) : string :=
  match bs with
  | [] => ""
  | [a] =>
      let x := Byte.to_N a in
      String (char_of (x / 4)) (String (char_of (x mod 4 * 16)) "==")
  | [a; b] =>
      let x := Byte.to_N a in
      let y := Byte.to_N b in
      String (char_of (x / 4))
        (String (char_of (x mod 4 * 16 + y / 16))
           (String (char_of (y mod 16 * 4)) "="))
  | a :: b :: c :: rest =>
      let x := Byte.to_N a in
      let y := Byte.to_N b in
      let z := Byte.to_N c in
      String (char_of (x / 4))
        (String (char_of (x mod 4 * 16 + y / 16))
           (String (char_of (y mod 16 * 4 + z / 64))
              (String (char_of (z mod 64)) (encode rest))))
  end.

(** The decoder of RFC 4648, the inverse the stored [content] is meant for:
    groups of four characters, padding allowed in the last group only. *)
Fixpoint decode (s : string) : option (list byte) :=
  match s with
  | "" => Some []
  | String c0 (String c1 (String c2 (String c3 rest))) =>
      s0 ← val_of c0;
      s1 ← val_of c1;
      a ← Byte.of_N (s0 * 4 + s1 / 16);
      if Ascii.eqb c3 "=" && String.eqb rest "" then
        if Ascii.eqb c2 "=" then Some [a]
        else
          s2 ← val_of c2;
          b ← Byte.of_N (s1 mod 16 * 16 + s2 / 4);
          Some [a; b]
      else
        s2 ← val_of c2;
        s3 ← val_of c3;
        b ← Byte.of_N (s1 mod 16 * 16 + s2 / 4);
        c ← Byte.of_N (s2 mod 4 * 64 + s3);
        tl ← decode rest;
        Some (a :: b :: c :: tl)
  | _ => None
  end.

Lemma val_of_char_of n : n < 64 → val_of (char_of n) = Some n.
Proof.
  intros Hn.
  assert (Hall : forallb (λ k, bool_decide (val_of (char_of k) = Some k))
                   (N.of_nat <$> seq 0 64) = true) by (vm_compute; reflexivity).
  rewrite forallb_forall in Hall.
  specialize (Hall n).
  eapply bool_decide_eq_true, Hall.
  apply list_elem_of_In, list_elem_of_fmap.
  exists (N.to_nat n). split; [lia|].
  apply list_elem_of_In, in_seq. lia.
Qed.

Lemma char_of_not_pad n : n < 64 → Ascii.eqb (char_of n) "=" = false.
Proof.
  intros Hn. apply Ascii.eqb_neq. intros Heq.
  pose proof (val_of_char_of n Hn) as Hv. rewrite Heq in Hv. discriminate.
Qed.

Lemma list_ind3 {A} (P : list A → Prop) :
  P [] → (∀ a, P [a]) → (∀ a b, P [a; b]) →
  (∀ a b c l, P l → P (a :: b :: c :: l)) →
  ∀ l, P l.
Proof.
  intros H0 H1 H2 H3 l.
  cut (P l ∧ (∀ a, P (a :: l)) ∧ (∀ a b, P (a :: b :: l)));
    [intros (? & _ & _); assumption|].
  induction l as [|x l (IH0 & IH1 & IH2)]; (split; [|split]); auto.
Qed.

Ltac Zify.zify_post_hook ::= Z.to_euclidean_division_equations.

(** Regrouping the bits of one, two or three bytes into sextets loses nothing. *)
Lemma sextets_bounds x y z :
  x ≤ 255 → y ≤ 255 → z ≤ 255 →
  x / 4 < 64 ∧ x mod 4 * 16 < 64 ∧ x mod 4 * 16 + y / 16 < 64 ∧
  y mod 16 * 4 < 64 ∧ y mod 16 * 4 + z / 64 < 64 ∧ z mod 64 < 64.
Proof. intros Hx Hy Hz. repeat split; lia. Qed.

Lemma regroup x y z :
  x ≤ 255 → y ≤ 255 → z ≤ 255 →
  x / 4 * 4 + (x mod 4 * 16) / 16 = x ∧
  x / 4 * 4 + (x mod 4 * 16 + y / 16) / 16 = x ∧
  (x mod 4 * 16 + y / 16) mod 16 * 16 + (y mod 16 * 4) / 4 = y ∧
  (x mod 4 * 16 + y / 16) mod 16 * 16 + (y mod 16 * 4 + z / 64) / 4 = y ∧
  (y mod 16 * 4 + z / 64) mod 4 * 64 + z mod 64 = z.
Proof. intros Hx Hy Hz. repeat split; lia. Qed.

Ltac Zify.zify_post_hook ::= idtac.

Example encode_Man : encode ["M"; "a"; "n"]%byte = "TWFu".
Proof. reflexivity. Qed.

Example encode_Ma : encode ["M"; "a"]%byte = "TWE=".
Proof. reflexivity. Qed.

Example encode_M : encode ["M"]%byte = "TQ==".
Proof. reflexivity. Qed.

Example decode_bad : decode "TQ=" = None.
Proof. reflexivity. Qed.

(** Round trip: decoding what [encode] produced gives the bytes back. *)
Theorem decode_encode bs : decode (encode bs) = Some bs.
Proof.
  induction bs as [|a|a b|a b c rest IH] using list_ind3; [reflexivity|..].
  - pose proof (Byte.to_N_bounded a) as Ha.
    destruct (sextets_bounds _ _ _ Ha Ha Ha) as (B1 & B2 & _).
    destruct (regroup _ _ _ Ha Ha Ha) as (R1 & _).
    cbn [encode decode]. rewrite !val_of_char_of by assumption. cbn [mbind option_bind].
    rewrite R1, Byte.of_to_N. reflexivity.
  - pose proof (Byte.to_N_bounded a) as Ha. pose proof (Byte.to_N_bounded b) as Hb.
    destruct (sextets_bounds _ _ _ Ha Hb Hb) as (B1 & _ & B3 & B4 & _).
    destruct (regroup _ _ _ Ha Hb Hb) as (_ & R2 & R3 & _).
    cbn [encode decode]. rewrite !val_of_char_of by assumption. cbn [mbind option_bind].
    rewrite R2, Byte.of_to_N. cbn [mbind option_bind].
    rewrite (char_of_not_pad _ B4). cbn [andb].
    change (Ascii.eqb "=" "=" && String.eqb "" "")%bool with true. cbn iota.
    rewrite R3, Byte.of_to_N. reflexivity.
  - pose proof (Byte.to_N_bounded a) as Ha. pose proof (Byte.to_N_bounded b) as Hb.
    pose proof (Byte.to_N_bounded c) as Hc.
    destruct (sextets_bounds _ _ _ Ha Hb Hc) as (B1 & _ & B3 & _ & B5 & B6).
    destruct (regroup _ _ _ Ha Hb Hc) as (_ & R2 & _ & R4 & R5).
    cbn [encode decode]. fold encode. fold decode.
    rewrite !val_of_char_of by assumption. cbn [mbind option_bind].
    rewrite R2, Byte.of_to_N. cbn [mbind option_bind].
    rewrite (char_of_not_pad _ B6). cbn [andb]. cbn iota.
    rewrite R4, R5, !Byte.of_to_N. cbn [mbind option_bind].
    rewrite IH. reflexivity.
Qed.

End Base64.

(** ** Mongoose: casting a field to the type of its schema path *)

(** A cast gives [None] for a CastError (which fails validation, so [save]
    throws), and otherwise the value to store, itself [None] for null. *)

(** [String(n)] for an integer below 10^21 in magnitude, which is where a
    number is printed as its decimal expansion; every safe integer is. *)
Definition number_toString (n : Z) : string :=
  NilZero.string_of_int (Z.to_int n).

(** A [String] path: null stays null, a string is itself, a number or a
    boolean is its [toString()].  No scalar fails this cast. *)
Definition castString (v : option jval) : option string :=
  match v with
  | None | Some JNull => None
  | Some (JStr s) => Some s
  | Some (JNum n) => Some (number_toString n)
  | Some (JBool b) => Some (if b then "true" else "false")
  end.

(** A [Boolean] path: [true], ['true'], [1], ['1'], ['yes'] give true;
    [false], ['false'], [0], ['0'], ['no'] give false; null stays null;
    anything else is a CastError. *)
Definition castBoolean (v : jval) : option (option bool) :=
  match v with
  | JNull => Some None
  | JBool b => Some (Some b)
  | JNum n =>
      if (n =? 1)%Z then Some (Some true)
      else if (n =? 0)%Z then Some (Some false)
      else None
  | JStr s =>
      if bool_decide (s ∈ ["true"; "1"; "yes"]) then Some (Some true)
      else if bool_decide (s ∈ ["false"; "0"; "no"]) then Some (Some false)
      else None
  end.

(** [{ type: Boolean, default: d }]: the default fills a field that is
    [undefined]; a field that is present, null included, is cast. *)
Definition booleanWithDefault (d : bool) (v : option jval) : option (option bool) :=
  match v with
  | None => Some (Some d)
  | Some x => castBoolean x
  end.

(** ** Collections *)

(** An ObjectId in its canonical form. *)
Definition oid := string.

Class Document (D : Type) := doc_id : D → oid.

Module Collection.
Section Ops.
Context {D : Type}.

(** [findOneAndUpdate]: the first document, in natural order, that matches
    is replaced by its update; the result is the updated document
    ([{ new: true }]) or null. *)
Fixpoint findOneAndUpdate (p : D → bool) (upd : D → D) (docs : list D)
  : list D * option D :=
  match docs with
  | [] => ([], None)
  | d :: ds =>
      if p d then (upd d :: ds, Some (upd d))
      else let '(ds', r) := findOneAndUpdate p upd ds in (d :: ds', r)
  end.

(** [findOneAndDelete]: the first matching document is removed. *)
Fixpoint findOneAndDelete (p : D → bool) (docs : list D) : list D * option D :=
  match docs with
  | [] => ([], None)
  | d :: ds =>
      if p d then (ds, Some d)
      else let '(ds', r) := findOneAndDelete p ds in (d :: ds', r)
  end.

Context `{Document D}.

Definition has_id (i : oid) (d : D) : bool := bool_decide (doc_id d = i).

Definition findByIdAndUpdate (i : oid) (upd : D → D) (docs : list D) :=
  findOneAndUpdate (has_id i) upd docs.

Definition findByIdAndDelete (i : oid) (docs : list D) :=
  findOneAndDelete (has_id i) docs.

(** [save] of a new document: the unique index on [_id] refuses a
    duplicate (E11000), otherwise the document is appended. *)
Definition insertOne (d : D) (docs : list D) : option (list D) :=
  if existsb (has_id (doc_id d)) docs then None else Some (docs ++ [d]).

(** The unique index on [_id]. *)
Definition unique_ids (docs : list D) : Prop := NoDup (doc_id <$> docs).
End Ops.
End Collection.

(** ** Schemas *)

(** A [Vendor] document. *)
Record account := {
  _id : oid;
  fullName : option string;
  email : option string;
  phone : option string;
  password : option string;
  aadhar : option string;
  gst : option string;
  verified : option bool;
  shoploc : option string;
  shopname : option string
}.

(** A [Supplier] document: the fields of a vendor and [shopStatus]. *)
Record supplier := {
  profile :> account;
  shopStatus : option bool
}.

Global Instance account_document : Document account := _id.
Global Instance supplier_document : Document supplier := λ d, _id d.

Module Grievance.
Record attachment := {
  filename : option string;
  mimetype : option string;
  content : option string
}.

Record t := {
  _id : oid;
  supplierName : option string;
  supplierShop : option string;
  vendorName : option string;
  vendorLocation : option string;
  issueDate : option Z;
  issueType : option string;
  issueDetails : option string;
  postedBy : string;
  attachments : list attachment
}.
End Grievance.

Global Instance grievance_document : Document Grievance.t := Grievance._id.

Module Menu.
Record t := {
  _id : oid;
  phone : option string;
  shopname : option string;
  gst : option string;
  itemname : option string;
  itemcost : option Z;
  todaysstock : option Z
}.
End Menu.

Module VendorCart.
Record t := {
  _id : oid;
  itemId : option string;
  itemname : option string;
  itemcost : option Z;
  quantity : option Z;
  supplierShop : option string;
  supplierGst : option string;
  vendorName : option string;
  vendorShop : option string;
  vendorGst : option string;
  timestamp : option Z
}.
End VendorCart.

(** ** State and responses *)

(** The database and the upload directory. *)
Record state := {
  vendors : list account;
  suppliers : list supplier;
  grievances : list Grievance.t;
  menus : list Menu.t;
  vendorcarts : list VendorCart.t;
  disk : gmap string (list byte)
}.

Definition with_vendors (vs : list account) (s : state) : state :=
  {| vendors := vs; suppliers := suppliers s; grievances := grievances s;
     menus := menus s; vendorcarts := vendorcarts s; disk := disk s |}.

Definition with_suppliers (ss : list supplier) (s : state) : state :=
  {| vendors := vendors s; suppliers := ss; grievances := grievances s;
     menus := menus s; vendorcarts := vendorcarts s; disk := disk s |}.

Definition with_grievances (gs : list Grievance.t) (s : state) : state :=
  {| vendors := vendors s; suppliers := suppliers s; grievances := gs;
     menus := menus s; vendorcarts := vendorcarts s; disk := disk s |}.

Definition with_disk (d : gmap string (list byte)) (s : state) : state :=
  {| vendors := vendors s; suppliers := suppliers s; grievances := grievances s;
     menus := menus s; vendorcarts := vendorcarts s; disk := d |}.

(** The JSON a handler answers with; the [details] of an error envelope (the
    text of the exception) are left out. *)
Inductive payload : Type :=
| Message (message : string)
| Error (error : string)
| Users (vs : list account) (ss : list supplier)
| GrievanceList (gs : list Grievance.t)
| ShopStatus (message : string) (isShopOpen : option bool).

Record response := Json { status : nat; body : payload }.

Definition set_verified (a : account) : account :=
  {| _id := _id a; fullName := fullName a; email := email a; phone := phone a;
     password := password a; aadhar := aadhar a; gst := gst a;
     verified := Some true; shoploc := shoploc a; shopname := shopname a |}.

Definition set_verified_supplier (d : supplier) : supplier :=
  {| profile := set_verified d; shopStatus := shopStatus d |}.

Definition set_shopStatus (b : bool) (d : supplier) : supplier :=
  {| profile := profile d; shopStatus := Some b |}.

(** A file staged by the upload middleware ([req.files]). *)
Record upfile := {
  originalname : string;
  mimetype : string;
  path : string
}.

(** [String.prototype.toLowerCase] on the ASCII letters. *)
Definition lower_char (c : ascii) : ascii :=
  let k := N_of_ascii c in
  if ((65 <=? k) && (k <=? 90))%N then ascii_of_N (k + 32) else c.

Fixpoint toLowerCase (s : string) : string :=
  match s with
  | EmptyString => EmptyString
  | String c s' => String (lower_char c) (toLowerCase s')
  end.

(** ** The handlers *)

Section Server.

(** The driver's ObjectId cast of a string ([None]: the CastError), and the
    timestamp [new Date(s)] parses a string to ([None]: an invalid date). *)
Variable castObjectId : string → option oid.
Variable parseDate : string → option Z.

(** A [Date] path: null and [''] give null, [true] and [false] are refused,
    a number is the timestamp when in the range of a date, a string is
    parsed. *)
Definition castDate (v : option jval) : option (option Z) :=
  match v with
  | None | Some JNull => Some None
  | Some (JBool _) => None
  | Some (JNum n) =>
      if (Z.abs n <=? 8640000000000000)%Z then Some (Some (integer n)) else None
  | Some (JStr s) =>
      if String.eqb s "" then Some None else Some <$> parseDate s
  end.

(** The [_id] of a new document: the one the body carries, cast; when the
    body carries none, or null, the ObjectId [fresh] that the driver
    generates. *)
Definition new_id (body : jobject) (fresh : oid) : option oid :=
  match body !! "_id" with
  | None | Some JNull => Some fresh
  | Some v => castString (Some v) ≫= castObjectId
  end.

(** [new Vendor({ ...req.body })], validated: the fields of the schema are
    cast from the body, the others are dropped. *)
Definition new_account (body : jobject) (fresh : oid) : option account :=
  i ← new_id body fresh;
  v ← booleanWithDefault false (body !! "verified");
  Some {| _id := i;
          fullName := castString (body !! "fullName");
          email := castString (body !! "email");
          phone := castString (body !! "phone");
          password := castString (body !! "password");
          aadhar := castString (body !! "aadhar");
          gst := castString (body !! "gst");
          verified := v;
          shoploc := castString (body !! "shoploc");
          shopname := castString (body !! "shopname") |}.

(** [new Supplier({ ...req.body })], validated. *)
Definition new_supplier (body : jobject) (fresh : oid) : option supplier :=
  a ← new_account body fresh;
  o ← booleanWithDefault false (body !! "shopStatus");
  Some {| profile := a; shopStatus := o |}.

(** POST /api/register *)
Definition register (body : jobject) (fresh : oid) (s : state) : state * response :=
  match new_account body fresh ≫= λ v, Collection.insertOne v (vendors s) with
  | Some vs => (with_vendors vs s, Json 200 (Message "Vendor registered"))
  | None => (s, Json 500 (Error "Registration failed"))
  end.

(** POST /api/supplier/register *)
Definition supplier_register (body : jobject) (fresh : oid) (s : state)
  : state * response :=
  match new_supplier body fresh ≫= λ d, Collection.insertOne d (suppliers s) with
  | Some ss => (with_suppliers ss s, Json 200 (Message "Supplier registered"))
  | None => (s, Json 500 (Error "Supplier registration failed"))
  end.

(** One element of [req.files.map(...)]: [readFileSync] throws when the
    path is not on disk. *)
Definition encode_file (d : gmap string (list byte)) (f : upfile)
  : option Grievance.attachment :=
  bs ← d !! path f;
  Some {| Grievance.filename := Some (originalname f);
          Grievance.mimetype := Some (mimetype f);
          Grievance.content := Some (Base64.encode bs) |}.

(** [req.files?.forEach(file => fs.unlinkSync(file.path))]: the files are
    removed in order; [unlinkSync] throws at a path that is not on disk, and
    the removals made before it stay.  The boolean tells whether the loop
    completed. *)
Fixpoint unlink_all (fs : list upfile) (d : gmap string (list byte))
  : gmap string (list byte) * bool :=
  match fs with
  | [] => (d, true)
  | f :: fs' =>
      match d !! path f with
      | None => (d, false)
      | Some _ => unlink_all fs' (delete (path f) d)
      end
  end.

(** [postedBy: { type: String, enum: ['vendor', 'supplier'], required: true }] *)
Definition postedBy_enum : list string := ["vendor"; "supplier"].

Definition validate_postedBy (v : option jval) : option string :=
  p ← castString v;
  if bool_decide (p ∈ postedBy_enum) then Some p else None.

(** [new Grievance({ ...req.body, attachments: files, postedBy: req.body.postedBy })],
    validated. *)
Definition new_grievance (body : jobject) (files : list Grievance.attachment)
    (fresh : oid) : option Grievance.t :=
  i ← new_id body fresh;
  date ← castDate (body !! "issueDate");
  p ← validate_postedBy (body !! "postedBy");
  Some {| Grievance._id := i;
          Grievance.supplierName := castString (body !! "supplierName");
          Grievance.supplierShop := castString (body !! "supplierShop");
          Grievance.vendorName := castString (body !! "vendorName");
          Grievance.vendorLocation := castString (body !! "vendorLocation");
          Grievance.issueDate := date;
          Grievance.issueType := castString (body !! "issueType");
          Grievance.issueDetails := castString (body !! "issueDetails");
          Grievance.postedBy := p;
          Grievance.attachments := files |}.

Definition submission_failed : response :=
  Json 500 (Error "Grievance submission failed").

(** POST /api/grievance.  [files] is [req.files]: the staged uploads of a
    multipart request, [undefined] otherwise.  Any exception in the [try]
    block leads to the 500 answer; what was done before it stays done. *)
Definition submit_grievance (body : jobject) (files : option (list upfile))
    (fresh : oid) (s : state) : state * response :=
  match mapM (encode_file (disk s)) (default [] files) with
  | None => (s, submission_failed)
  | Some atts =>
      match new_grievance body atts fresh ≫= λ g, Collection.insertOne g (grievances s) with
      | None => (s, submission_failed)
      | Some gs =>
          let '(d, completed) := unlink_all (default [] files) (disk s) in
          (with_disk d (with_grievances gs s),
           if completed then Json 200 (Message "Grievance submitted successfully")
           else submission_failed)
      end
  end.

(** The sort [{ issueDate: -1 }] compares dates by their timestamp; a
    document whose date is missing or null is below every date. *)
Definition date_ltb (a b : option Z) : bool :=
  match a, b with
  | Some x, Some y => (x <? y)%Z
  | None, Some _ => true
  | _, None => false
  end.

Fixpoint insert_desc (g : Grievance.t) (l : list Grievance.t) : list Grievance.t :=
  match l with
  | [] => [g]
  | h :: t =>
      if date_ltb (Grievance.issueDate g) (Grievance.issueDate h)
      then h :: insert_desc g t
      else g :: h :: t
  end.

(** Newest first; documents with the same date stay in natural order. *)
Definition sort_desc (l : list Grievance.t) : list Grievance.t :=
  foldr insert_desc [] l.

(** [(postedBy && postedBy !== 'all') ? { postedBy: postedBy.toLowerCase() } : {}] *)
Definition grievance_filter (postedBy : option string) : option string :=
  match postedBy with
  | Some p =>
      if negb (String.eqb p "") && negb (String.eqb p "all")
      then Some (toLowerCase p) else None
  | None => None
  end.

(** [Grievance.find(filter)] *)
Definition find_grievances (flt : option string) (gs : list Grievance.t)
  : list Grievance.t :=
  match flt with
  | None => gs
  | Some p => filter (λ g, Grievance.postedBy g = p) gs
  end.

(** GET /api/grievances.  [postedBy] is [req.query.postedBy], a string when
    present. *)
Definition get_grievances (postedBy : option string) (s : state) : response :=
  Json 200 (GrievanceList
    (sort_desc (find_grievances (grievance_filter postedBy) (grievances s)))).

(** [{ verified: { $ne: true } }] *)
Definition unverified (a : account) : Prop := verified a ≠ Some true.

(** GET /api/unverified-users *)
Definition unverified_users (s : state) : response :=
  Json 200 (Users (filter unverified (vendors s))
                  (filter (λ d : supplier, unverified d) (suppliers s))).

(** POST /api/verify-user.  [userType] and [id] are the two fields read from
    the body; [id] is the string of an account's [_id]. *)
Definition verify_user (userType : option jval) (id : string) (s : state)
  : state * response :=
  let verified_ok := Json 200 (Message "User verified") in
  let failed := Json 500 (Error "Verification failed") in
  if decide (userType = Some (JStr "vendor")) then
    match castObjectId id with
    | Some i =>
        (with_vendors (Collection.findByIdAndUpdate i set_verified (vendors s)).1 s,
         verified_ok)
    | None => (s, failed)
    end
  else if decide (userType = Some (JStr "supplier")) then
    match castObjectId id with
    | Some i =>
        (with_suppliers
           (Collection.findByIdAndUpdate i set_verified_supplier (suppliers s)).1 s,
         verified_ok)
    | None => (s, failed)
    end
  else (s, verified_ok).

(** DELETE /api/reject-user/:type/:id *)
Definition reject_user (type id : string) (s : state) : state * response :=
  let rejected := Json 200 (Message "User rejected and deleted") in
  let failed := Json 500 (Error "Rejection failed") in
  if decide (type = "vendor") then
    match castObjectId id with
    | Some i => (with_vendors (Collection.findByIdAndDelete i (vendors s)).1 s, rejected)
    | None => (s, failed)
    end
  else if decide (type = "supplier") then
    match castObjectId id with
    | Some i =>
        (with_suppliers (Collection.findByIdAndDelete i (suppliers s)).1 s, rejected)
    | None => (s, failed)
    end
  else (s, rejected).

(** The query [{ phone: phone }], the value cast to the path's type. *)
Definition phone_is (p : option jval) (d : supplier) : bool :=
  bool_decide (phone d = castString p).

(** POST /api/supplier/shop-status *)
Definition shop_status (phone status : option jval) (s : state) : state * response :=
  match status with
  | Some (JBool b) =>
      if truthy phone then
        match Collection.findOneAndUpdate (phone_is phone) (set_shopStatus b) (suppliers s) with
        | (ss, Some updatedSupplier) =>
            (with_suppliers ss s,
             Json 200 (ShopStatus "Shop status updated successfully"
                         (shopStatus updatedSupplier)))
        | (_, None) => (s, Json 404 (Error "Supplier not found"))
        end
      else (s, Json 400 (Error "Phone and status (boolean) are required"))
  | _ => (s, Json 400 (Error "Phone and status (boolean) are required"))
  end.
End Server.

Definition empty_state : state :=
  {| vendors := []; suppliers := []; grievances := []; menus := [];
     vendorcarts := []; disk := ∅ |}.

(** ** Requests and the states the server reaches *)

(** The requests that change the state. *)
Inductive request : Type :=
| PostRegister (body : jobject) (fresh : oid)
| PostSupplierRegister (body : jobject) (fresh : oid)
| PostGrievance (body : jobject) (files : option (list upfile)) (fresh : oid)
| PostVerifyUser (userType : option jval) (id : string)
| DeleteRejectUser (type id : string)
| PostShopStatus (phone status : option jval).

Section Run.
Variable castObjectId : string → option oid.
Variable parseDate : string → option Z.

Definition handle (r : request) (s : state) : state * response :=
  match r with
  | PostRegister body fresh => register castObjectId body fresh s
  | PostSupplierRegister body fresh => supplier_register castObjectId body fresh s
  | PostGrievance body files fresh =>
      submit_grievance castObjectId parseDate body files fresh s
  | PostVerifyUser userType id => verify_user castObjectId userType id s
  | DeleteRejectUser type id => reject_user castObjectId type id s
  | PostShopStatus phone status => shop_status phone status s
  end.

(** The states reached from an empty database, whatever the upload
    directory holds, by serving requests one after the other. *)
Inductive reachable : state → Prop :=
| reachable_init d : reachable (with_disk d empty_state)
| reachable_step r s : reachable s → reachable (handle r s).1.
End Run.

(** Every entry of the ledger satisfies the [enum] of [postedBy], as the
    validation of [save] ensures. *)
Definition ledger_valid (s : state) : Prop :=
  Forall (λ g, Grievance.postedBy g ∈ postedBy_enum) (grievances s).

(** The unique indexes and the schema of the ledger. *)
Definition store_ok (s : state) : Prop :=
  Collection.unique_ids (vendors s) ∧ Collection.unique_ids (suppliers s) ∧
  ledger_valid s.

(** ** A concrete driver, for running the handlers *)

Definition is_hex (c : ascii) : bool :=
  let k := N_of_ascii c in
  (((48 <=? k) && (k <=? 57)) || ((65 <=? k) && (k <=? 70))
   || ((97 <=? k) && (k <=? 102)))%N.

(** The cast of a string of 24 hexadecimal digits to an ObjectId. *)
Definition hex24 (s : string) : option oid :=
  if (String.length s =? 24)%nat && forallb is_hex (list_ascii_of_string s)
  then Some (toLowerCase s) else None.

(** Dates given as a decimal number of milliseconds. *)
Definition millis (s : string) : option Z :=
  Z.of_int <$> NilZero.int_of_string s.

(** Sample data. *)
Definition id_a : oid := "64b7f3a2c1d4e5f6a7b8c9d0".
Definition id_b : oid := "64b7f3a2c1d4e5f6a7b8c9d1".

Definition sample_account (i : oid) (tel : string) (v : bool) : account :=
  {| _id := i; fullName := Some "Asha"; email := Some "asha@example.in";
     phone := Some tel; password := Some "secret"; aadhar := None; gst := None;
     verified := Some v; shoploc := None; shopname := Some "Chaat Corner" |}.

Definition sample_supplier (i : oid) (tel : string) (v : bool) : supplier :=
  {| profile := sample_account i tel v; shopStatus := Some false |}.

Definition sample_entry (i : oid) (by_role : string) (date : Z) : Grievance.t :=
  {| Grievance._id := i; Grievance.supplierName := None;
     Grievance.supplierShop := None; Grievance.vendorName := None;
     Grievance.vendorLocation := None; Grievance.issueDate := Some date;
     Grievance.issueType := Some "late delivery"; Grievance.issueDetails := None;
     Grievance.postedBy := by_role; Grievance.attachments := [] |}.

Definition sample_file : upfile :=
  {| originalname := "bill.png"; mimetype := "image/png";
     path := "uploads/1700000000000-bill.png" |}.

(** A state with one staged upload and an empty database. *)
Definition staged_state : state :=
  with_disk {[ "uploads/1700000000000-bill.png" := ["M"; "a"; "n"]%byte ]} empty_state.

(** A state with an unverified and a verified vendor. *)
Definition vendors_state : state :=
  with_vendors [sample_account id_a "9800000001" false;
                sample_account id_b "9800000002" true] empty_state.

(** A state with two suppliers. *)
Definition suppliers_state : state :=
  with_suppliers [sample_supplier id_a "9800000001" false;
                  sample_supplier id_b "9800000002" true] empty_state.

(** A state whose ledger holds three entries, not in the order of their dates. *)
Definition ledger_state : state :=
  with_grievances [sample_entry "64b7f3a2c1d4e5f6a7b8c9e2" "supplier" 2000;
                   sample_entry "64b7f3a2c1d4e5f6a7b8c9e1" "vendor" 1000;
                   sample_entry "64b7f3a2c1d4e5f6a7b8c9e3" "vendor" 3000] empty_state.

(** ** Facts about the collection operations *)

Section CollectionFacts.
Context {D : Type}.
Implicit Types (p : D → bool) (upd : D → D) (docs : list D).

Lemma findOneAndUpdate_none p upd docs :
  Forall (λ d, p d = false) docs →
  Collection.findOneAndUpdate p upd docs = (docs, None).
Proof.
  induction 1 as [|d ds Hd _ IH]; cbn; [done|]. by rewrite Hd, IH.
Qed.

Lemma findOneAndUpdate_first p upd pre d post :
  Forall (λ x, p x = false) pre → p d = true →
  Collection.findOneAndUpdate p upd (pre ++ d :: post)
  = (pre ++ upd d :: post, Some (upd d)).
Proof.
  intros Hpre Hd. induction Hpre as [|x xs Hx _ IH]; cbn.
  - by rewrite Hd.
  - by rewrite Hx, IH.
Qed.

(** Either nothing matches, or the list splits at its first match. *)
Lemma first_match p docs :
  Forall (λ d, p d = false) docs ∨
  ∃ pre d post, docs = pre ++ d :: post ∧ Forall (λ x, p x = false) pre ∧ p d = true.
Proof.
  induction docs as [|x xs [IH | (pre & d & post & -> & Hpre & Hd)]].
  - left. constructor.
  - destruct (p x) eqn:Hx.
    + right. exists [], x, xs. repeat split; [constructor | done].
    + left. by constructor.
  - destruct (p x) eqn:Hx.
    + right. exists [], x, (pre ++ d :: post). repeat split; [constructor | done].
    + right. exists (x :: pre), d, post. repeat split; [by constructor | done].
Qed.

Lemma findOneAndUpdate_fixed p upd docs :
  (∀ d, d ∈ docs → p d = true → upd d = d) →
  (Collection.findOneAndUpdate p upd docs).1 = docs.
Proof.
  induction docs as [|x xs IH]; intros Hfix; cbn; [done|].
  destruct (p x) eqn:Hx; cbn.
  - f_equal. apply Hfix; [left | done].
  - destruct (Collection.findOneAndUpdate p upd xs) as [ds r] eqn:E. cbn in *.
    f_equal. apply IH. intros d Hin. apply Hfix. by right.
Qed.

Lemma findOneAndUpdate_twice p upd docs :
  (∀ d, p (upd d) = p d) → (∀ d, upd (upd d) = upd d) →
  (Collection.findOneAndUpdate p upd (Collection.findOneAndUpdate p upd docs).1).1
  = (Collection.findOneAndUpdate p upd docs).1.
Proof.
  intros Hp Hupd. induction docs as [|x xs IH]; cbn; [done|].
  destruct (p x) eqn:Hx; cbn.
  - by rewrite Hp, Hx, Hupd.
  - destruct (Collection.findOneAndUpdate p upd xs) as [ds r] eqn:E. cbn in *.
    rewrite Hx. destruct (Collection.findOneAndUpdate p upd ds) as [ds' r'] eqn:E'.
    cbn in *. by rewrite IH.
Qed.

Lemma findOneAndDelete_none p docs :
  Forall (λ d, p d = false) docs →
  Collection.findOneAndDelete p docs = (docs, None).
Proof.
  induction 1 as [|d ds Hd _ IH]; cbn; [done|]. by rewrite Hd, IH.
Qed.

Lemma findOneAndDelete_first p pre d post :
  Forall (λ x, p x = false) pre → p d = true →
  Collection.findOneAndDelete p (pre ++ d :: post) = (pre ++ post, Some d).
Proof.
  intros Hpre Hd. induction Hpre as [|x xs Hx _ IH]; cbn.
  - by rewrite Hd.
  - by rewrite Hx, IH.
Qed.

(** The documents that do not match are all kept, in their order. *)
Lemma findOneAndDelete_others p docs :
  filter (λ d, p d = false) (Collection.findOneAndDelete p docs).1
  = filter (λ d, p d = false) docs.
Proof.
  induction docs as [|x xs IH]; [done|].
  cbn [Collection.findOneAndDelete]. destruct (p x) eqn:Hx.
  - cbn [fst]. rewrite (filter_cons_False _ x); [done | congruence].
  - destruct (Collection.findOneAndDelete p xs) as [ds r] eqn:E. cbn [fst] in *.
    rewrite !filter_cons_True by done. by rewrite IH.
Qed.

Context `{Document D}.

(** Under the unique index, deleting by id leaves no document of that id. *)
Lemma findByIdAndDelete_gone i docs :
  Collection.unique_ids docs →
  Forall (λ d, Collection.has_id i d = false) (Collection.findByIdAndDelete i docs).1.
Proof.
  unfold Collection.unique_ids, Collection.findByIdAndDelete.
  induction docs as [|x xs IH]; cbn; intros Hnd; [constructor|].
  apply NoDup_cons in Hnd as [Hx Hnd].
  destruct (Collection.has_id i x) eqn:Hix; cbn.
  - apply bool_decide_eq_true in Hix. subst i.
    apply Forall_forall. intros d Hd. apply bool_decide_eq_false. intros Heq.
    apply Hx, list_elem_of_fmap. by exists d.
  - destruct (Collection.findOneAndDelete (Collection.has_id i) xs) as [ds r] eqn:E.
    cbn in *. constructor; [done | by apply IH].
Qed.

(** Deleting by id keeps every document of another id, in its order. *)
Lemma findByIdAndDelete_others i docs :
  filter (λ d, doc_id d ≠ i) (Collection.findByIdAndDelete i docs).1
  = filter (λ d, doc_id d ≠ i) docs.
Proof.
  assert (Hiff : ∀ d, doc_id d ≠ i ↔ Collection.has_id i d = false)
    by (intros d; symmetry; apply bool_decide_eq_false).
  rewrite !(list_filter_iff _ _ _ Hiff).
  apply findOneAndDelete_others.
Qed.
End CollectionFacts.

Lemma with_vendors_same s : with_vendors (vendors s) s = s.
Proof. by destruct s. Qed.

Lemma with_suppliers_same s : with_suppliers (suppliers s) s = s.
Proof. by destruct s. Qed.

Lemma has_id_false {D} `{Document D} (i : oid) (d : D) :
  Collection.has_id i d = false ↔ doc_id d ≠ i.
Proof. apply bool_decide_eq_false. Qed.

Lemma set_verified_fixed (a : account) : verified a = Some true → set_verified a = a.
Proof. destruct a; cbn; by intros ->. Qed.

Lemma set_verified_supplier_fixed (d : supplier) :
  verified d = Some true → set_verified_supplier d = d.
Proof.
  destruct d as [a o]; unfold set_verified_supplier; cbn.
  intros Hv. by rewrite (set_verified_fixed a Hv).
Qed.

(** ** Registration *)

(** Without a [verified] field in the body, the account that registration
    stores is unverified. *)
Lemma register_default_unverified cast body fresh s s' r :
  body !! "verified" = None →
  register cast body fresh s = (s', r) →
  s' = s ∨ ∃ a, vendors s' = vendors s ++ [a] ∧ verified a = Some false.
Proof.
  intros Hv. unfold register, new_account. rewrite Hv. cbn.
  destruct (new_id cast body fresh) as [i|]; cbn; [|intros [= <- _]; by left].
  unfold Collection.insertOne.
  destruct (existsb _ _); cbn; intros [= <- _]; [by left|].
  right. eexists. split; [reflexivity | done].
Qed.

(** A body that carries [verified: true] is stored as it is: the schema
    default only fills a field that is absent. *)
Lemma register_keeps_body_verified cast body fresh s s' r :
  body !! "verified" = Some (JBool true) →
  register cast body fresh s = (s', r) →
  s' = s ∨ ∃ a, vendors s' = vendors s ++ [a] ∧ verified a = Some true.
Proof.
  intros Hv. unfold register, new_account. rewrite Hv. cbn.
  destruct (new_id cast body fresh) as [i|]; cbn; [|intros [= <- _]; by left].
  unfold Collection.insertOne.
  destruct (existsb _ _); cbn; intros [= <- _]; [by left|].
  right. eexists. split; [reflexivity | done].
Qed.

(** C1 (the code departs from it).  The claim: every account created by
    registration has [verified = false], whatever the request supplies.
    Here the vendor registration handler runs on the body
    [{ email: "a@b.in", verified: true }] over an empty database: it answers
    200 and the account it stores has [verified = true]. *)
Theorem register_stores_supplied_verified :
  register hex24 {[ "email" := JStr "a@b.in"; "verified" := JBool true ]}
    "64b7f3a2c1d4e5f6a7b8c9d0" empty_state
  = (with_vendors
       [ {| _id := "64b7f3a2c1d4e5f6a7b8c9d0"; fullName := None;
            email := Some "a@b.in"; phone := None; password := None;
            aadhar := None; gst := None; verified := Some true;
            shoploc := None; shopname := None |} ] empty_state,
     Json 200 (Message "Vendor registered")).
Proof. vm_compute. reflexivity. Qed.

(** The supplier registration handler behaves the same way. *)
Lemma supplier_register_stores_supplied_verified :
  map (λ d : supplier, verified d)
    (suppliers (supplier_register hex24 {[ "verified" := JBool true ]}
                  "64b7f3a2c1d4e5f6a7b8c9d0" empty_state).1)
  = [Some true].
Proof. vm_compute. reflexivity. Qed.

(** ** Verification controller *)

Section Verification.
Variable castObjectId : string → option oid.

Definition user_verified : response := Json 200 (Message "User verified").
Definition user_rejected : response := Json 200 (Message "User rejected and deleted").

(** C3 (the code departs from it).  The claim: Approve fails with NotFound
    when no account of the role has the id, and with InvalidRole when the
    role is neither "vendor" nor "supplier".  The handler answers
    200 "User verified" in both cases and leaves the state as it was: this
    holds whenever, for the role "vendor" or "supplier", the id is
    well-formed and no document of that collection carries it, and for
    every other role. *)
Theorem verify_user_missing_reports_success userType id s :
  (userType = Some (JStr "vendor") →
     ∃ i, castObjectId id = Some i ∧ Forall (λ a, _id a ≠ i) (vendors s)) →
  (userType = Some (JStr "supplier") →
     ∃ i, castObjectId id = Some i ∧ Forall (λ d : supplier, _id d ≠ i) (suppliers s)) →
  verify_user castObjectId userType id s = (s, user_verified).
Proof.
  intros Hv Hs. unfold verify_user.
  destruct (decide (userType = Some (JStr "vendor"))) as [Hu|_].
  - destruct (Hv Hu) as (i & -> & Hnone).
    unfold Collection.findByIdAndUpdate.
    rewrite findOneAndUpdate_none.
    + cbn. by rewrite with_vendors_same.
    + eapply Forall_impl; [exact Hnone|]. intros a Ha. by apply has_id_false.
  - destruct (decide (userType = Some (JStr "supplier"))) as [Hu|_]; [|done].
    destruct (Hs Hu) as (i & -> & Hnone).
    unfold Collection.findByIdAndUpdate.
    rewrite findOneAndUpdate_none.
    + cbn. by rewrite with_suppliers_same.
    + eapply Forall_impl; [exact Hnone|]. intros a Ha. by apply has_id_false.
Qed.

(** C6.  Approve is idempotent: a second [verify_user] with the same role
    and id leaves the state the first one produced; and when every account
    of the role that carries the id is already verified, [verify_user]
    changes nothing and answers 200. *)
Theorem verify_user_idempotent userType id s :
  (verify_user castObjectId userType id
     (verify_user castObjectId userType id s).1).1
  = (verify_user castObjectId userType id s).1
  ∧ ∀ i, castObjectId id = Some i →
      (userType = Some (JStr "vendor") →
         Forall (λ a, _id a = i → verified a = Some true) (vendors s)) →
      (userType = Some (JStr "supplier") →
         Forall (λ d : supplier, _id d = i → verified d = Some true) (suppliers s)) →
      verify_user castObjectId userType id s = (s, user_verified).
Proof.
  split.
  - unfold verify_user.
    destruct (decide (userType = Some (JStr "vendor"))) as [Hu|Hu].
    + destruct (castObjectId id) as [i|]; [|done]. cbn.
      unfold Collection.findByIdAndUpdate. by rewrite findOneAndUpdate_twice.
    + destruct (decide (userType = Some (JStr "supplier"))) as [Hu'|Hu']; [|done].
      destruct (castObjectId id) as [i|]; [|done]. cbn.
      unfold Collection.findByIdAndUpdate. by rewrite findOneAndUpdate_twice.
  - intros i Hi Hv Hs. unfold verify_user. rewrite Hi.
    destruct (decide (userType = Some (JStr "vendor"))) as [Hu|Hu].
    + unfold Collection.findByIdAndUpdate. rewrite findOneAndUpdate_fixed.
      * by rewrite with_vendors_same.
      * intros a Ha Hid. apply set_verified_fixed.
        specialize (Hv Hu). rewrite Forall_forall in Hv. apply Hv; [done|].
        by apply bool_decide_eq_true in Hid.
    + destruct (decide (userType = Some (JStr "supplier"))) as [Hu'|Hu']; [|done].
      unfold Collection.findByIdAndUpdate. rewrite findOneAndUpdate_fixed.
      * by rewrite with_suppliers_same.
      * intros a Ha Hid. apply set_verified_supplier_fixed.
        specialize (Hs Hu'). rewrite Forall_forall in Hs. apply Hs; [done|].
        by apply bool_decide_eq_true in Hid.
Qed.
End Verification.


Section Rejection.
Variable castObjectId : string → option oid.

(** C4 (the code departs from it).  The claim: Reject removes the account, so
    that List-pending no longer includes it, and a second Reject with the
    same id fails with NotFound.  Under the unique index on [_id], after
    [reject_user] no document of the role's collection carries the id, and
    neither does any account that [unverified_users] lists for that role; but
    the second [reject_user] answers 200 "User rejected and deleted", with
    the state unchanged. *)
Theorem reject_user_twice type id i s :
  castObjectId id = Some i →
  Collection.unique_ids (vendors s) → Collection.unique_ids (suppliers s) →
  let s1 := (reject_user castObjectId type id s).1 in
  (∀ vs ss, unverified_users s1 = Json 200 (Users vs ss) →
     (type = "vendor" → Forall (λ a, _id a ≠ i) vs) ∧
     (type = "supplier" → Forall (λ d : supplier, _id d ≠ i) ss)) ∧
  reject_user castObjectId type id s1 = (s1, user_rejected).
Proof.
  intros Hi Hv Hs s1.
  assert (Hgone : (type = "vendor" → Forall (λ a, Collection.has_id i a = false) (vendors s1))
                ∧ (type = "supplier" →
                   Forall (λ d : supplier, Collection.has_id i d = false) (suppliers s1))).
  { subst s1. unfold reject_user. rewrite Hi. split; intros ->.
    - rewrite decide_True by done. cbn. by apply findByIdAndDelete_gone.
    - rewrite decide_False by done. rewrite decide_True by done. cbn.
      by apply findByIdAndDelete_gone. }
  destruct Hgone as [Gv Gs]. split.
  - intros vs ss [= <- <-]. split; intros Ht.
    + apply Forall_forall. intros a [_ Ha]%list_elem_of_filter.
      specialize (Gv Ht). rewrite Forall_forall in Gv.
      specialize (Gv a Ha). by apply (has_id_false (D:=account)) in Gv.
    + apply Forall_forall. intros a [_ Ha]%list_elem_of_filter.
      specialize (Gs Ht). rewrite Forall_forall in Gs.
      specialize (Gs a Ha). by apply (has_id_false (D:=supplier)) in Gs.
  - unfold reject_user at 1. rewrite Hi.
    destruct (decide (type = "vendor")) as [Ht|Ht].
    + unfold Collection.findByIdAndDelete. rewrite findOneAndDelete_none by auto.
      cbn. by rewrite with_vendors_same.
    + destruct (decide (type = "supplier")) as [Ht'|Ht']; [|done].
      unfold Collection.findByIdAndDelete. rewrite findOneAndDelete_none by auto.
      cbn. by rewrite with_suppliers_same.
Qed.

(** C9.  Reject touches the account store only: the menus, the cart entries,
    the grievances and the upload directory are as before; the collection of
    the other role is as before; and in the collection of the given role
    every account with another [_id] is kept, unchanged and in its place
    among the others.  A malformed id changes nothing at all. *)
Theorem reject_user_frame type id s :
  let s1 := (reject_user castObjectId type id s).1 in
  menus s1 = menus s ∧ vendorcarts s1 = vendorcarts s ∧
  grievances s1 = grievances s ∧ disk s1 = disk s ∧
  (type ≠ "vendor" → vendors s1 = vendors s) ∧
  (type ≠ "supplier" → suppliers s1 = suppliers s) ∧
  (castObjectId id = None → s1 = s) ∧
  (∀ i, castObjectId id = Some i →
     filter (λ a, _id a ≠ i) (vendors s1) = filter (λ a, _id a ≠ i) (vendors s) ∧
     filter (λ d : supplier, _id d ≠ i) (suppliers s1)
     = filter (λ d : supplier, _id d ≠ i) (suppliers s)).
Proof.
  unfold reject_user.
  destruct (decide (type = "vendor")) as [Ht|Ht].
  - subst type. destruct (castObjectId id) as [i|] eqn:Hi; cbn.
    + split_and!; try done. intros j [= <-]. split; [|done].
      apply (findByIdAndDelete_others (D:=account)).
    + split_and!; done.
  - destruct (decide (type = "supplier")) as [Ht'|Ht'].
    + destruct (castObjectId id) as [i|] eqn:Hi; cbn.
      * split_and!; try done. intros j [= <-]. split; [done|].
        apply (findByIdAndDelete_others (D:=supplier)).
      * split_and!; done.
    + cbn. split_and!; done.
Qed.
End Rejection.

(** ** Shop status *)

(** C10.  For a phone [q] that is truthy and a boolean status, [shop_status]
    leaves every collection but the suppliers as it was.  When no supplier
    has the phone, it answers 404 "Supplier not found" and the state is
    unchanged.  Otherwise the first supplier with the phone, and only that
    document, is replaced by a document with the same profile (all the
    fields of an account, [verified] among them) and the new [shopStatus]. *)
Theorem shop_status_frame (q : option jval) b s :
  truthy q = true →
  let res := shop_status q (Some (JBool b)) s in
  vendors res.1 = vendors s ∧ grievances res.1 = grievances s ∧
  menus res.1 = menus s ∧ vendorcarts res.1 = vendorcarts s ∧
  disk res.1 = disk s ∧
  (Forall (λ d : supplier, phone d ≠ castString q) (suppliers s) →
     res = (s, Json 404 (Error "Supplier not found"))) ∧
  (∀ pre d post,
     suppliers s = pre ++ d :: post →
     Forall (λ x : supplier, phone x ≠ castString q) pre →
     phone d = castString q →
     res = (with_suppliers
              (pre ++ {| profile := profile d; shopStatus := Some b |} :: post) s,
            Json 200 (ShopStatus "Shop status updated successfully" (Some b)))).
Proof.
  intros Hp res. subst res. unfold shop_status. rewrite Hp.
  assert (Hno : ∀ l : list supplier,
            Forall (λ d : supplier, phone d ≠ castString q) l →
            Forall (λ d, phone_is q d = false) l).
  { intros l Hl. eapply Forall_impl; [exact Hl|].
    intros d Hd. by apply bool_decide_eq_false. }
  destruct (first_match (phone_is q) (suppliers s))
    as [Hnone | (pre & d & post & Hsplit & Hpre & Hd)].
  - rewrite findOneAndUpdate_none by done. cbn. repeat split; try done.
    intros pre d post Hsplit _ Hd. rewrite Hsplit in Hnone.
    apply Forall_app in Hnone as [_ Hnone]. apply Forall_cons in Hnone as [Hnone _].
    apply bool_decide_eq_false in Hnone. done.
  - rewrite Hsplit, findOneAndUpdate_first by done. cbn. repeat split; try done.
    + intros Hall. apply Forall_app in Hall as [_ Hall].
      apply Forall_cons in Hall as [Hall _]. by apply bool_decide_eq_true in Hd.
    + intros pre' d' post' Hsplit' Hpre' Hd'.
      assert (Heq : pre = pre' ∧ d = d' ∧ post = post'); [|by destruct Heq as (-> & -> & ->)].
      apply Hno in Hpre'. apply (bool_decide_eq_true_2 _) in Hd'.
      clear -Hsplit' Hpre Hd Hpre' Hd'. fold (phone_is q d') in Hd'.
      revert pre' Hsplit' Hpre'.
      induction Hpre as [|x xs Hx _ IH]; intros [|y ys] Hsplit' Hpre'; cbn in Hsplit'.
      * by injection Hsplit' as -> ->.
      * injection Hsplit' as -> _. apply Forall_cons in Hpre' as [Hy _]. congruence.
      * injection Hsplit' as -> _. congruence.
      * injection Hsplit' as -> Hrest. apply Forall_cons in Hpre' as [_ Hys].
        destruct (IH ys Hrest Hys) as (-> & -> & ->). done.
Qed.

(** ** Grievance ledger *)

(** The letter a character stands for, when it is one: 0 for [A] and [a],
    up to 25 for [Z] and [z]. *)
Definition letter_of (c : ascii) : option N :=
  let k := N_of_ascii c in
  if ((65 <=? k) && (k <=? 90))%N then Some (k - 65)%N
  else if ((97 <=? k) && (k <=? 122))%N then Some (k - 97)%N
  else None.

(** Two characters equal up to case: the same letter, in whatever case, or
    the same character when neither is a letter. *)
Definition same_char_nocase (a b : ascii) : bool :=
  match letter_of a, letter_of b with
  | Some i, Some j => (i =? j)%N
  | None, None => Ascii.eqb a b
  | _, _ => false
  end.

Fixpoint eqb_nocase (a b : string) : bool :=
  match a, b with
  | EmptyString, EmptyString => true
  | String x a', String y b' => same_char_nocase x y && eqb_nocase a' b'
  | _, _ => false
  end.

(** Equality of strings up to the case of their letters. *)
Definition eq_nocase (a b : string) : Prop := eqb_nocase a b = true.

Global Instance eq_nocase_dec a b : Decision (eq_nocase a b).
Proof. unfold eq_nocase. apply _. Defined.

(** [not_older g h]: the issue date of [g] is not before that of [h]. *)
Definition not_older (g h : Grievance.t) : Prop :=
  date_ltb (Grievance.issueDate g) (Grievance.issueDate h) = false.

(** A submission that passes the validation of [save] and whose [_id] is not
    taken. *)
Definition accepted (castObjectId : string → option oid) (parseDate : string → option Z)
    (body : jobject) (fresh : oid) (s : state) : Prop :=
  ∃ i date p,
    new_id castObjectId body fresh = Some i ∧
    castDate parseDate (body !! "issueDate") = Some date ∧
    validate_postedBy (body !! "postedBy") = Some p ∧
    Forall (λ g, Grievance._id g ≠ i) (grievances s).

Lemma filter_iff_on {A} (P Q : A → Prop) `{∀ x, Decision (P x)} `{∀ x, Decision (Q x)}
    (l : list A) :
  Forall (λ x, P x ↔ Q x) l → filter P l = filter Q l.
Proof.
  induction 1 as [|x xs Hx _ IH]; [done|].
  rewrite !filter_cons, IH.
  destruct (decide (P x)), (decide (Q x)); tauto.
Qed.

Lemma insertOne_fresh {D} `{Document D} (d : D) (docs : list D) :
  Forall (λ x, doc_id x ≠ doc_id d) docs →
  Collection.insertOne d docs = Some (docs ++ [d]).
Proof.
  intros Hfresh. unfold Collection.insertOne.
  destruct (existsb _ docs) eqn:E; [|done].
  apply existsb_exists in E as (x & Hin & Hx).
  apply bool_decide_eq_true in Hx. rewrite Forall_forall in Hfresh.
  destruct (Hfresh x); [by apply list_elem_of_In | done].
Qed.

Lemma insertOne_Some {D} `{Document D} (d : D) (docs docs' : list D) :
  Collection.insertOne d docs = Some docs' → docs' = docs ++ [d].
Proof. unfold Collection.insertOne. destruct (existsb _ _); congruence. Qed.

Lemma unlink_all_gone fs : ∀ d d',
  unlink_all fs d = (d', true) →
  Forall (λ f, d' !! path f = None) fs ∧ ∀ k, d !! k = None → d' !! k = None.
Proof.
  induction fs as [|f fs IH]; cbn; intros d d'.
  - intros [= ->]. split; [constructor | done].
  - destruct (d !! path f) eqn:E; [|done]. intros Hrest.
    destruct (IH _ _ Hrest) as [Hfs Hkeep]. split.
    + constructor; [|done]. apply Hkeep, lookup_delete_eq.
    + intros k Hk. apply Hkeep. rewrite lookup_delete. by case_decide.
Qed.

Lemma toLowerCase_enum p : p ∈ postedBy_enum → toLowerCase p = p.
Proof.
  unfold postedBy_enum. rewrite !elem_of_cons, elem_of_nil.
  intros [-> | [-> | []]]; reflexivity.
Qed.

(** Lower-casing identifies exactly the characters that are equal up to case. *)
Lemma same_char_nocase_lower a b :
  same_char_nocase a b = true ↔ lower_char a = lower_char b.
Proof.
  assert (Hall : forallb (λ i, forallb (λ j,
            Bool.eqb (same_char_nocase (ascii_of_nat i) (ascii_of_nat j))
                     (bool_decide (lower_char (ascii_of_nat i) = lower_char (ascii_of_nat j))))
            (seq 0 256)) (seq 0 256) = true) by (vm_compute; reflexivity).
  rewrite forallb_forall in Hall.
  assert (Hin : ∀ c, In (nat_of_ascii c) (seq 0 256)).
  { intros c. apply in_seq. pose proof (nat_ascii_bounded c). lia. }
  specialize (Hall _ (Hin a)). rewrite forallb_forall in Hall.
  specialize (Hall _ (Hin b)). rewrite !ascii_nat_embedding in Hall.
  apply Bool.eqb_prop in Hall. rewrite Hall. apply bool_decide_eq_true.
Qed.

Lemma eq_nocase_lower a : ∀ b, eq_nocase a b ↔ toLowerCase a = toLowerCase b.
Proof.
  unfold eq_nocase. induction a as [|x a IH]; intros [|y b]; cbn; try done.
  rewrite andb_true_iff, same_char_nocase_lower, IH. split.
  - by intros [-> ->].
  - by intros [= -> ->].
Qed.

Lemma toLowerCase_idemp s : toLowerCase (toLowerCase s) = toLowerCase s.
Proof.
  induction s as [|c s IH]; cbn; [done|]. rewrite IH. f_equal.
  assert (Hall : forallb (λ n, bool_decide
            (lower_char (lower_char (ascii_of_nat n)) = lower_char (ascii_of_nat n)))
            (seq 0 256) = true) by (vm_compute; reflexivity).
  rewrite forallb_forall in Hall.
  specialize (Hall (nat_of_ascii c)). rewrite ascii_nat_embedding in Hall.
  eapply bool_decide_eq_true, Hall. apply in_seq. pose proof (nat_ascii_bounded c). lia.
Qed.

Lemma date_ltb_asym a b : date_ltb a b = true → date_ltb b a = false.
Proof. destruct a, b; cbn; try done. intros ?%Z.ltb_lt. apply Z.ltb_ge. lia. Qed.

Lemma not_older_trans g h k : not_older g h → not_older h k → not_older g k.
Proof.
  unfold not_older.
  destruct (Grievance.issueDate g), (Grievance.issueDate h), (Grievance.issueDate k);
    cbn; try done.
  rewrite !Z.ltb_ge. lia.
Qed.

Lemma insert_desc_perm g l : insert_desc g l ≡ₚ g :: l.
Proof.
  induction l as [|h t IH]; cbn; [done|].
  destruct (date_ltb _ _); [|done]. rewrite IH. apply Permutation_swap.
Qed.

Lemma sort_desc_perm l : sort_desc l ≡ₚ l.
Proof.
  induction l as [|g l IH]; cbn; [done|]. by rewrite insert_desc_perm, IH.
Qed.

Lemma insert_desc_sorted g l :
  StronglySorted not_older l → StronglySorted not_older (insert_desc g l).
Proof.
  induction 1 as [|h t Hsorted IH Hh]; cbn.
  - repeat constructor.
  - destruct (date_ltb (Grievance.issueDate g) (Grievance.issueDate h)) eqn:E.
    + constructor; [done|]. rewrite insert_desc_perm.
      constructor; [|done]. by apply date_ltb_asym.
    + constructor; [by constructor|]. constructor; [done|].
      eapply Forall_impl; [exact Hh|]. intros k Hk. by eapply not_older_trans.
Qed.

Lemma sort_desc_sorted l : StronglySorted not_older (sort_desc l).
Proof.
  induction l as [|g l IH]; cbn; [constructor | by apply insert_desc_sorted].
Qed.

Section Ledger.
Variable castObjectId : string → option oid.
Variable parseDate : string → option Z.

(** What [submit_grievance] does once the files are read and the new document
    is written: the entry is appended, then the files are unlinked. *)
Lemma submit_grievance_written body files fresh s atts g :
  mapM (encode_file (disk s)) files = Some atts →
  new_grievance castObjectId parseDate body atts fresh = Some g →
  Forall (λ x, Grievance._id x ≠ Grievance._id g) (grievances s) →
  submit_grievance castObjectId parseDate body (Some files) fresh s
  = (with_disk (unlink_all files (disk s)).1 (with_grievances (grievances s ++ [g]) s),
     if (unlink_all files (disk s)).2
     then Json 200 (Message "Grievance submitted successfully")
     else submission_failed).
Proof.
  intros Hread Hnew Hfresh. unfold submit_grievance. change (default [] (Some files)) with files.
  rewrite Hread, Hnew. cbn [mbind option_bind].
  rewrite (insertOne_fresh g) by done.
  by destruct (unlink_all files (disk s)).
Qed.

(** A request that is not multipart, so that [req.files] is undefined, is
    treated as one with no file. *)
Lemma submit_grievance_no_files body fresh s :
  submit_grievance castObjectId parseDate body None fresh s
  = submit_grievance castObjectId parseDate body (Some []) fresh s.
Proof. reflexivity. Qed.

(** A submission answered with 200 leaves none of its files on disk. *)
Lemma submit_grievance_success_cleans body files fresh s s' r :
  submit_grievance castObjectId parseDate body (Some files) fresh s = (s', r) →
  status r = 200 →
  Forall (λ f, disk s' !! path f = None) files.
Proof.
  unfold submit_grievance. change (default [] (Some files)) with files.
  destruct (mapM _ files) as [atts|]; [|by intros [= <- <-]].
  destruct (_ ≫= _) as [gs|]; [|by intros [= <- <-]].
  destruct (unlink_all files (disk s)) as [d [|]] eqn:E; intros [= <- <-]; [|done].
  intros _. cbn. by apply unlink_all_gone in E as [? _].
Qed.

(** Validation keeps the ledger within the [enum] of [postedBy]. *)
Lemma submit_grievance_ledger_valid body files fresh s :
  ledger_valid s →
  ledger_valid (submit_grievance castObjectId parseDate body files fresh s).1.
Proof.
  intros Hvalid. unfold submit_grievance.
  destruct (mapM _ _) as [atts|]; [|done].
  destruct (new_grievance _ _ body atts fresh) as [g|] eqn:Hnew; cbn; [|done].
  destruct (Collection.insertOne g (grievances s)) as [gs|] eqn:Hins; [|done].
  apply insertOne_Some in Hins as ->.
  destruct (unlink_all _ _) as [d c]. unfold ledger_valid. cbn.
  apply Forall_app. split; [done|]. constructor; [|constructor].
  unfold new_grievance in Hnew.
  destruct (new_id _ _ _); [|done]. cbn in Hnew.
  destruct (castDate _ _); [|done]. cbn in Hnew.
  unfold validate_postedBy in Hnew.
  destruct (castString (body !! "postedBy")) as [p|]; [|done]. cbn in Hnew.
  destruct (bool_decide (p ∈ postedBy_enum)) eqn:Hp; [|done]. cbn in Hnew.
  injection Hnew as <-. cbn. by apply bool_decide_eq_true in Hp.
Qed.

(** C2 (the code departs from it).  The claim: after Submit completes, in
    success or in failure, no temporary upload file of the request remains on
    disk.  When the staged files are on disk and [postedBy] fails validation,
    so that [save] throws, [submit_grievance] answers 500 and leaves the
    state as it was: every staged file is still on disk. *)
Theorem submit_grievance_failure_keeps_files body files fresh s :
  Forall (λ f, is_Some (disk s !! path f)) files →
  validate_postedBy (body !! "postedBy") = None →
  let res := submit_grievance castObjectId parseDate body (Some files) fresh s in
  res = (s, submission_failed) ∧ Forall (λ f, is_Some (disk res.1 !! path f)) files.
Proof.
  intros Hdisk Hposted res.
  assert (Hres : res = (s, submission_failed)); [|by rewrite Hres].
  subst res. unfold submit_grievance. change (default [] (Some files)) with files.
  destruct (mapM _ files) as [atts|]; [|done].
  unfold new_grievance. rewrite Hposted.
  destruct (new_id _ _ _); [|done]. cbn. by destruct (castDate _ _).
Qed.

(** The handler on [N] staged files.  When the files are on disk and the
    submission is accepted, the ledger gains one entry.  Whenever the ledger
    gains an entry, its [attachments] has length [N] and, at each position,
    the attachment carries the [originalname] and the [mimetype] of the file
    at that position, and a [content] whose base64 decoding is the bytes the
    path of that file had on disk when the handler started. *)
Theorem submit_grievance_attachments body files fresh s :
  let s' := (submit_grievance castObjectId parseDate body (Some files) fresh s).1 in
  (Forall (λ f, is_Some (disk s !! path f)) files →
   accepted castObjectId parseDate body fresh s →
   ∃ g, grievances s' = grievances s ++ [g]) ∧
  (∀ g, grievances s' = grievances s ++ [g] →
     length (Grievance.attachments g) = length files ∧
     ∀ k f, files !! k = Some f →
       ∃ a c bs,
         Grievance.attachments g !! k = Some a ∧
         Grievance.filename a = Some (originalname f) ∧
         Grievance.mimetype a = Some (mimetype f) ∧
         Grievance.content a = Some c ∧
         disk s !! path f = Some bs ∧
         Base64.decode c = Some bs).
Proof.
  intros s'. split.
  - intros Hdisk (i & date & p & Hid & Hdate & Hposted & Hfresh).
    assert (Hread : is_Some (mapM (encode_file (disk s)) files)).
    { apply mapM_is_Some. eapply Forall_impl; [exact Hdisk|].
      intros f [bs Hbs]. unfold compose, encode_file. rewrite Hbs. by eexists. }
    destruct Hread as [atts Hread].
    assert (Hnew : ∃ g, new_grievance castObjectId parseDate body atts fresh = Some g
                        ∧ Grievance._id g = i).
    { unfold new_grievance. rewrite Hid, Hdate, Hposted. cbn. by eexists. }
    destruct Hnew as (g & Hnew & <-).
    exists g. subst s'. by rewrite (submit_grievance_written _ _ _ _ atts g).
  - intros g. subst s'. unfold submit_grievance. change (default [] (Some files)) with files.
    assert (Hsame : grievances s = grievances s ++ [g] → False).
    { intros Heq. apply (f_equal length) in Heq. rewrite length_app in Heq.
      cbn in Heq. lia. }
    destruct (mapM _ files) as [atts|] eqn:Hread; [|by intros ?%Hsame].
    destruct (new_grievance _ _ body atts fresh) as [g0|] eqn:Hnew;
      cbn [mbind option_bind]; [|by intros ?%Hsame].
    destruct (Collection.insertOne g0 (grievances s)) as [gs|] eqn:Hins;
      [|by intros ?%Hsame].
    apply insertOne_Some in Hins as ->.
    destruct (unlink_all files (disk s)) as [d c]. cbn.
    intros [_ [= <-]]%app_inj_tail.
    assert (Hatts : Grievance.attachments g0 = atts).
    { unfold new_grievance in Hnew.
      destruct (new_id _ _ _); [|done]. cbn in Hnew.
      destruct (castDate _ _); [|done]. cbn in Hnew.
      destruct (validate_postedBy _); [|done]. cbn in Hnew. by injection Hnew as <-. }
    rewrite Hatts. apply mapM_Some in Hread. split.
    + symmetry. by eapply Forall2_length.
    + intros k f Hk.
      destruct (Forall2_lookup_l _ _ _ _ _ Hread Hk) as (a & Ha & Henc).
      unfold encode_file in Henc.
      destruct (disk s !! path f) as [bs|] eqn:Hbs; [|done]. injection Henc as <-.
      eexists _, (Base64.encode bs), bs. cbn. split_and!; try done.
      apply Base64.decode_encode.
Qed.
End Ledger.

(** ** The invariant of the reachable states *)

Section Invariant.
Context {D : Type} `{Document D}.

Lemma findOneAndUpdate_ids (p : D → bool) (upd : D → D) (docs : list D) :
  (∀ d, doc_id (upd d) = doc_id d) →
  doc_id <$> (Collection.findOneAndUpdate p upd docs).1 = doc_id <$> docs.
Proof.
  intros Hupd. induction docs as [|x xs IH]; [done|].
  cbn [Collection.findOneAndUpdate]. destruct (p x).
  - cbn. by rewrite Hupd.
  - destruct (Collection.findOneAndUpdate p upd xs) as [ds r]. cbn in *. by rewrite IH.
Qed.

Lemma findOneAndDelete_sublist (p : D → bool) (docs : list D) :
  sublist (Collection.findOneAndDelete p docs).1 docs.
Proof.
  induction docs as [|x xs IH]; [done|].
  cbn [Collection.findOneAndDelete]. destruct (p x).
  - cbn. by apply sublist_cons.
  - destruct (Collection.findOneAndDelete p xs) as [ds r]. cbn in *. by apply sublist_skip.
Qed.

Lemma findOneAndDelete_unique (p : D → bool) (docs : list D) :
  Collection.unique_ids docs →
  Collection.unique_ids (Collection.findOneAndDelete p docs).1.
Proof.
  unfold Collection.unique_ids. intros Hnd.
  eapply sublist_NoDup; [exact Hnd | apply fmap_sublist, findOneAndDelete_sublist].
Qed.

Lemma insertOne_unique (d : D) (docs docs' : list D) :
  Collection.unique_ids docs →
  Collection.insertOne d docs = Some docs' →
  Collection.unique_ids docs'.
Proof.
  unfold Collection.unique_ids, Collection.insertOne. intros Hnd.
  destruct (existsb _ docs) eqn:E; [done|]. intros [= <-].
  rewrite fmap_app. apply NoDup_app. split_and!; [done| |apply NoDup_singleton].
  intros i (x & -> & Hx)%list_elem_of_fmap Heq%list_elem_of_singleton.
  assert (existsb (Collection.has_id (doc_id d)) docs = true); [|congruence].
  apply existsb_exists. exists x. split; [by apply list_elem_of_In|].
  by apply bool_decide_eq_true.
Qed.
End Invariant.

Lemma handle_store_ok castObjectId parseDate r s :
  store_ok s → store_ok (handle castObjectId parseDate r s).1.
Proof.
  intros (Hv & Hs & Hg). destruct r as [body fresh|body fresh|body files fresh|ut id|type id|ph st];
    cbn [handle].
  - unfold register.
    destruct (new_account _ body fresh) as [a|]; cbn; [|done].
    destruct (Collection.insertOne a (vendors s)) as [vs|] eqn:E; [|done].
    split_and!; try done. by eapply (insertOne_unique a).
  - unfold supplier_register.
    destruct (new_supplier _ body fresh) as [a|]; cbn; [|done].
    destruct (Collection.insertOne a (suppliers s)) as [vs|] eqn:E; [|done].
    split_and!; try done. by eapply (insertOne_unique a).
  - pose proof (submit_grievance_ledger_valid castObjectId parseDate body files fresh s Hg)
      as Hg'.
    split_and!; [| |exact Hg'].
    + unfold submit_grievance. destruct (mapM _ _); [|done].
      destruct (_ ≫= _); [|done]. by destruct (unlink_all _ _).
    + unfold submit_grievance. destruct (mapM _ _); [|done].
      destruct (_ ≫= _); [|done]. by destruct (unlink_all _ _).
  - unfold verify_user.
    destruct (decide _); [|destruct (decide _)];
      destruct (castObjectId id); try done; split_and!; try done;
      unfold Collection.unique_ids, Collection.findByIdAndUpdate; cbn;
      by rewrite findOneAndUpdate_ids.
  - unfold reject_user.
    destruct (decide _); [|destruct (decide _)];
      destruct (castObjectId id); try done; split_and!; try done;
      by apply findOneAndDelete_unique.
  - unfold shop_status. destruct st as [[| | |]|]; try done.
    destruct (truthy ph); [|done].
    destruct (Collection.findOneAndUpdate _ _ (suppliers s)) as [ss [d|]] eqn:E; [|done].
    split_and!; try done. cbn. unfold Collection.unique_ids.
    replace ss with (Collection.findOneAndUpdate (phone_is ph) (set_shopStatus b) (suppliers s)).1
      by (by rewrite E).
    by rewrite findOneAndUpdate_ids.
Qed.

(** Every reachable state has unique ids in both account collections and a
    ledger within the schema. *)
Lemma reachable_store_ok castObjectId parseDate s :
  reachable castObjectId parseDate s → store_ok s.
Proof.
  induction 1 as [d|r s _ IH]; [|by apply handle_store_ok].
  split_and!; [apply NoDup_nil_2 | apply NoDup_nil_2 | constructor].
Qed.

(** Decides the comparisons of timestamps left by [insert_desc]. *)
Ltac settle_dates :=
  repeat match goal with
    | |- context [(?x <? ?y)%Z] => destruct (Z.ltb_spec x y); try lia
    end.

(** Closes a goal whose hypotheses equate two entries of different dates. *)
Ltac date_clash :=
  repeat match goal with
    | H : _ ∨ _ |- _ => destruct H
    | H : False |- _ => destruct H
    end;
  subst;
  repeat match goal with
    | H1 : Grievance.issueDate ?e = Some ?a, H2 : Grievance.issueDate ?e = Some ?b |- _ =>
        assert (a = b) by congruence; clear H2
    end;
  lia.

Lemma sort_desc_three l e1 e2 e3 t1 t2 t3 :
  Grievance.issueDate e1 = Some t1 →
  Grievance.issueDate e2 = Some t2 →
  Grievance.issueDate e3 = Some t3 →
  (t1 < t2)%Z → (t2 < t3)%Z →
  l ≡ₚ [e1; e2; e3] →
  sort_desc l = [e3; e2; e1].
Proof.
  intros H1 H2 H3 Hlt Hlt' Hp.
  assert (Hlen : length l = 3) by (by rewrite Hp).
  destruct l as [|a [|b [|c [|]]]]; try discriminate. clear Hlen.
  assert (Ha : a ∈ [e1; e2; e3]) by (rewrite <- Hp; repeat constructor).
  assert (Hb : b ∈ [e1; e2; e3]) by (rewrite <- Hp; repeat constructor).
  assert (Hc : c ∈ [e1; e2; e3]) by (rewrite <- Hp; repeat constructor).
  assert (E1 : e1 ∈ [a; b; c]) by (rewrite Hp; repeat constructor).
  assert (E2 : e2 ∈ [a; b; c]) by (rewrite Hp; repeat constructor).
  assert (E3 : e3 ∈ [a; b; c]) by (rewrite Hp; repeat constructor).
  clear Hp. rewrite !elem_of_cons, !elem_of_nil in Ha, Hb, Hc, E1, E2, E3.
  destruct Ha as [->|[->|[->|[]]]], Hb as [->|[->|[->|[]]]], Hc as [->|[->|[->|[]]]];
    first [ solve [ unfold sort_desc; cbn [foldr insert_desc];
                    rewrite ?H1, ?H2, ?H3; cbn [date_ltb]; settle_dates;
                    cbn [insert_desc]; rewrite ?H1, ?H2, ?H3; cbn [date_ltb];
                    settle_dates; reflexivity ]
          | solve [ exfalso; date_clash ] ].
Qed.

(** C7.  On a ledger whose entries satisfy the schema, List with a filter
    that is a specific value (present, not empty, not "all") returns exactly
    the entries whose [postedBy] equals the filter up to case; with the
    filter "all" or absent it returns every entry. *)
Theorem get_grievances_filter s :
  ledger_valid s →
  (∀ p, p ≠ "" → p ≠ "all" →
     ∃ gs, get_grievances (Some p) s = Json 200 (GrievanceList gs) ∧
           gs ≡ₚ filter (λ g, eq_nocase (Grievance.postedBy g) p) (grievances s)) ∧
  (∀ q, q = None ∨ q = Some "all" →
     ∃ gs, get_grievances q s = Json 200 (GrievanceList gs) ∧ gs ≡ₚ grievances s).
Proof.
  intros Hvalid. split.
  - intros p Hne Hall. unfold get_grievances, grievance_filter.
    apply String.eqb_neq in Hne, Hall. rewrite Hne, Hall. cbn [negb andb].
    eexists. split; [reflexivity|]. rewrite sort_desc_perm. cbn [find_grievances].
    erewrite filter_iff_on; [reflexivity|].
    eapply Forall_impl; [exact Hvalid|]. intros g Hg.
    by rewrite eq_nocase_lower, (toLowerCase_enum _ Hg).
  - intros q [-> | ->]; unfold get_grievances; cbn; eexists;
      (split; [reflexivity | apply sort_desc_perm]).
Qed.

(** C8.  List returns the matching entries newest first: the answer is a
    rearrangement of the entries that match the filter in which no entry is
    older than one that follows it.  In particular a ledger that holds, in
    any order, three entries of issue dates [t1 < t2 < t3] is listed as
    [t3], [t2], [t1]. *)
Theorem get_grievances_sorted q s :
  (∃ gs, get_grievances q s = Json 200 (GrievanceList gs) ∧
         StronglySorted not_older gs ∧
         gs ≡ₚ find_grievances (grievance_filter q) (grievances s)) ∧
  (∀ e1 e2 e3 t1 t2 t3,
     Grievance.issueDate e1 = Some t1 →
     Grievance.issueDate e2 = Some t2 →
     Grievance.issueDate e3 = Some t3 →
     (t1 < t2)%Z → (t2 < t3)%Z →
     grievances s ≡ₚ [e1; e2; e3] →
     get_grievances None s = Json 200 (GrievanceList [e3; e2; e1])).
Proof.
  split.
  - eexists. split; [reflexivity|]. split; [apply sort_desc_sorted | apply sort_desc_perm].
  - intros e1 e2 e3 t1 t2 t3 H1 H2 H3 Hlt Hlt' Hp. unfold get_grievances. cbn.
    by rewrite (sort_desc_three _ e1 e2 e3 t1 t2 t3).
Qed.

(** ** The theorems at sample inputs *)

Lemma submit_grievance_failure_keeps_files_witness :
  let body : jobject := {[ "issueType" := JStr "late delivery" ]} in
  Forall (λ f, is_Some (disk staged_state !! path f)) [sample_file] ∧
  validate_postedBy (body !! "postedBy") = None ∧
  submit_grievance hex24 millis body (Some [sample_file]) id_a staged_state
  = (staged_state, submission_failed).
Proof.
  intros body.
  assert (Hdisk : Forall (λ f, is_Some (disk staged_state !! path f)) [sample_file])
    by (constructor; [by eexists | constructor]).
  assert (Hposted : validate_postedBy (body !! "postedBy") = None) by reflexivity.
  split_and!; [exact Hdisk | exact Hposted |].
  exact (proj1 (submit_grievance_failure_keeps_files hex24 millis body [sample_file]
                  id_a staged_state Hdisk Hposted)).
Defined.

Lemma verify_user_missing_reports_success_witness :
  verify_user hex24 (Some (JStr "vendor")) id_a empty_state = (empty_state, user_verified) ∧
  verify_user hex24 (Some (JStr "admin")) id_a vendors_state = (vendors_state, user_verified).
Proof.
  split.
  - apply verify_user_missing_reports_success.
    + intros _. exists id_a. split; [reflexivity | constructor].
    + intros [=].
  - apply verify_user_missing_reports_success; intros [=].
Defined.

Lemma reject_user_twice_witness :
  let s1 := (reject_user hex24 "vendor" id_a vendors_state).1 in
  unverified_users s1 = Json 200 (Users [] []) ∧
  reject_user hex24 "vendor" id_a s1 = (s1, user_rejected).
Proof.
  intros s1. split; [reflexivity|].
  refine (proj2 (reject_user_twice hex24 "vendor" id_a id_a vendors_state _ _ _)).
  - reflexivity.
  - unfold Collection.unique_ids. cbn.
    apply NoDup_cons. split; [|apply NoDup_singleton].
    intros Hin%list_elem_of_singleton. discriminate.
  - apply NoDup_nil_2.
Defined.

Lemma submit_grievance_attachments_witness :
  let body : jobject := {[ "postedBy" := JStr "vendor" ]} in
  let s' := (submit_grievance hex24 millis body (Some [sample_file]) id_a staged_state).1 in
  ∃ g, grievances s' = [g] ∧ length (Grievance.attachments g) = 1
       ∧ ∃ a, Grievance.attachments g !! 0 = Some a
              ∧ Grievance.filename a = Some "bill.png"
              ∧ (Grievance.content a ≫= Base64.decode) = Some ["M"; "a"; "n"]%byte.
Proof.
  intros body s'.
  destruct (submit_grievance_attachments hex24 millis body [sample_file] id_a staged_state)
    as [Hex Hprop].
  destruct Hex as [g Hg].
  - constructor; [by eexists | constructor].
  - exists id_a, None, "vendor". split_and!; [reflexivity.. | constructor].
  - exists g. split; [exact Hg|]. destruct (Hprop g Hg) as [Hlen Hat].
    split; [exact Hlen|].
    destruct (Hat 0 sample_file eq_refl) as (a & c & bs & Ha & Hname & _ & Hc & Hbs & Hdec).
    exists a. split_and!; [exact Ha | exact Hname |].
    rewrite Hc. cbn. rewrite Hdec. symmetry. exact Hbs.
Defined.

Lemma verify_user_idempotent_witness :
  verify_user hex24 (Some (JStr "vendor")) id_b vendors_state = (vendors_state, user_verified).
Proof.
  apply (proj2 (verify_user_idempotent hex24 (Some (JStr "vendor")) id_b vendors_state) id_b).
  - reflexivity.
  - intros _. constructor; [intros [=] | constructor; [reflexivity | constructor]].
  - intros [=].
Defined.

Lemma get_grievances_filter_witness :
  ledger_valid ledger_state ∧
  get_grievances (Some "Vendor") ledger_state
  = Json 200 (GrievanceList [sample_entry "64b7f3a2c1d4e5f6a7b8c9e3" "vendor" 3000;
                             sample_entry "64b7f3a2c1d4e5f6a7b8c9e1" "vendor" 1000]) ∧
  ∃ gs, get_grievances (Some "Vendor") ledger_state = Json 200 (GrievanceList gs) ∧
        gs ≡ₚ [sample_entry "64b7f3a2c1d4e5f6a7b8c9e1" "vendor" 1000;
               sample_entry "64b7f3a2c1d4e5f6a7b8c9e3" "vendor" 3000].
Proof.
  assert (Hvalid : ledger_valid ledger_state) by (repeat constructor).
  split; [exact Hvalid|]. split; [reflexivity|].
  change [sample_entry "64b7f3a2c1d4e5f6a7b8c9e1" "vendor" 1000;
          sample_entry "64b7f3a2c1d4e5f6a7b8c9e3" "vendor" 3000]
    with (filter (λ g, eq_nocase (Grievance.postedBy g) "Vendor") (grievances ledger_state)).
  apply (proj1 (get_grievances_filter ledger_state Hvalid) "Vendor"); intros [=].
Defined.

Lemma get_grievances_sorted_witness :
  get_grievances None ledger_state
  = Json 200 (GrievanceList
      [sample_entry "64b7f3a2c1d4e5f6a7b8c9e3" "vendor" 3000;
       sample_entry "64b7f3a2c1d4e5f6a7b8c9e2" "supplier" 2000;
       sample_entry "64b7f3a2c1d4e5f6a7b8c9e1" "vendor" 1000]).
Proof.
  apply (proj2 (get_grievances_sorted None ledger_state) _ _ _ 1000%Z 2000%Z 3000%Z);
    [reflexivity | reflexivity | reflexivity | lia | lia |].
  apply Permutation_swap.
Defined.

Lemma reject_user_frame_witness :
  let s1 := (reject_user hex24 "vendor" id_a vendors_state).1 in
  menus s1 = menus vendors_state ∧
  suppliers s1 = suppliers vendors_state ∧
  filter (λ a, _id a ≠ id_a) (vendors s1) = filter (λ a, _id a ≠ id_a) (vendors vendors_state).
Proof.
  intros s1.
  destruct (reject_user_frame hex24 "vendor" id_a vendors_state)
    as (Hm & _ & _ & _ & _ & Hs & _ & Hothers).
  split_and!; [exact Hm | apply Hs; intros [=] | apply (Hothers id_a); reflexivity].
Defined.

Lemma shop_status_frame_witness :
  shop_status (Some (JStr "9800000002")) (Some (JBool true)) suppliers_state
  = (with_suppliers
       [sample_supplier id_a "9800000001" false;
        {| profile := sample_account id_b "9800000002" true; shopStatus := Some true |}]
       suppliers_state,
     Json 200 (ShopStatus "Shop status updated successfully" (Some true))).
Proof.
  destruct (shop_status_frame (Some (JStr "9800000002")) true suppliers_state eq_refl)
    as (_ & _ & _ & _ & _ & _ & Hupd).
  apply (Hupd [sample_supplier id_a "9800000001" false]
              (sample_supplier id_b "9800000002" true) []).
  - reflexivity.
  - constructor; [intros [=] | constructor].
  - reflexivity.
Defined.

(** * The remaining routes: login, catalogue, cart *)

(** ** Login *)

(** 200 [{ message: 'Login successful', role, gst, shopname }] (the [name] the
    vendor route reads is not a path of the schema and is dropped from the
    JSON), or 401 [{ error: 'Invalid credentials' }]. *)
Inductive login_reply : Type :=
| LoginSuccessful (role : string) (user_gst user_shopname : option string)
| InvalidCredentials.

(** [{ $or: [{ email: userId }, { phone: userId }] }] *)
Definition identified_by (userId : string) (a : account) : bool :=
  bool_decide (email a = Some userId) || bool_decide (phone a = Some userId).

(** The body of both login routes: [findOne] gives the first document, in
    natural order, that the query matches; the stored password is compared
    with the submitted one by [!==].  [userId] and [pass] are the two fields
    read from the body, strings. *)
Definition login_as {D : Type} (acct : D → account) (role : string)
    (userId pass : string) (docs : list D) : login_reply :=
  match List.find (λ d, identified_by userId (acct d)) docs with
  | Some user =>
      if decide (password (acct user) = Some pass)
      then LoginSuccessful role (gst (acct user)) (shopname (acct user))
      else InvalidCredentials
  | None => InvalidCredentials
  end.

(** POST /api/vendor/login *)
Definition vendor_login (userId pass : string) (s : state) : login_reply :=
  login_as (λ a, a) "vendor" userId pass (vendors s).

(** POST /api/supplier/login.  The route is registered twice; the first
    registration answers every request, so the second is never run. *)
Definition supplier_login (userId pass : string) (s : state) : login_reply :=
  login_as profile "supplier" userId pass (suppliers s).

(** ** Catalogue and cart *)

Global Instance menu_document : Document Menu.t := Menu._id.

Definition with_menus (ms : list Menu.t) (s : state) : state :=
  {| vendors := vendors s; suppliers := suppliers s; grievances := grievances s;
     menus := ms; vendorcarts := vendorcarts s; disk := disk s |}.

(** A menu item as the routes present it: [{ id, name, price, stock }]
    ([itemname] for [name] in the answer to a creation). *)
Module MenuView.
Record t := {
  id : oid;
  name : option string;
  price : option Z;
  stock : option Z
}.
End MenuView.

Definition menu_view (m : Menu.t) : MenuView.t :=
  {| MenuView.id := Menu._id m; MenuView.name := Menu.itemname m;
     MenuView.price := Menu.itemcost m; MenuView.stock := Menu.todaysstock m |}.

Inductive catalog_reply : Type :=
| BadRequest (error : string)                              (* 400 *)
| InternalError (error : string)                           (* 500 *)
| MenuCreated (menuItem : MenuView.t)                      (* 201 *)
| MenuDocuments (docs : list Menu.t)                       (* 200, the documents *)
| MenuItems (count : nat) (menuItems : list MenuView.t)    (* 200 *)
| NoMenuItems                                              (* 404 *)
| CartItemAdded.                                           (* 200 *)

Definition menu_fields : list string :=
  ["phone"; "shopname"; "gst"; "itemname"; "itemcost"; "todaysstock"].

Definition cart_fields : list string :=
  ["itemId"; "itemname"; "vendorName"; "vendorShop"; "vendorGst"].

(** [!a || !b || ...] over the named fields of the body. *)
Definition all_truthy (fields : list string) (body : jobject) : bool :=
  forallb (λ k, truthy (body !! k)) fields.

Section Catalog.

(** [Number(s)] for a string: the number it denotes, [None] for NaN. *)
Variable toNumber : string → option Z.

(** [Number(v)], then the cast of a [Number] path, which refuses NaN. *)
Definition Number (v : option jval) : option Z :=
  match v with
  | None => None
  | Some JNull => Some 0%Z
  | Some (JBool b) => Some (if b then 1 else 0)%Z
  | Some (JNum n) => Some (integer n)
  | Some (JStr s) => toNumber s
  end.

(** [new Menu({ phone, shopname, gst, itemname, itemcost: Number(itemcost),
    todaysstock: Number(todaysstock) })], validated.  The six fields are
    picked from the body, so the [_id] is the one the driver generates. *)
Definition new_menu (body : jobject) (fresh : oid) : option Menu.t :=
  cost ← Number (body !! "itemcost");
  stock ← Number (body !! "todaysstock");
  Some {| Menu._id := fresh;
          Menu.phone := castString (body !! "phone");
          Menu.shopname := castString (body !! "shopname");
          Menu.gst := castString (body !! "gst");
          Menu.itemname := castString (body !! "itemname");
          Menu.itemcost := Some cost;
          Menu.todaysstock := Some stock |}.

(** POST /api/supplier/menu *)
Definition post_supplier_menu (body : jobject) (fresh : oid) (s : state)
  : state * catalog_reply :=
  if all_truthy menu_fields body then
    match new_menu body fresh with
    | Some newMenuItem =>
        match Collection.insertOne newMenuItem (menus s) with
        | Some ms => (with_menus ms s, MenuCreated (menu_view newMenuItem))
        | None => (s, InternalError "Failed to save menu item")
        end
    | None => (s, InternalError "Failed to save menu item")
    end
  else (s, BadRequest "All fields are required").
End Catalog.

(** [Menu.find({ phone })] *)
Definition menus_of_phone (phone : string) (s : state) : list Menu.t :=
  filter (λ m, Menu.phone m = Some phone) (menus s).

(** GET /api/supplier/store/:phone *)
Definition get_supplier_store (phone : string) (s : state) : catalog_reply :=
  MenuDocuments (menus_of_phone phone s).

(** GET /api/supplier/menu/:phone.  The sort key [createdAt] is not a path of
    the schema, so no document has it and the sort leaves the natural order. *)
Definition get_supplier_menu (phone : string) (s : state) : catalog_reply :=
  let items := menus_of_phone phone s in
  match items with
  | [] => NoMenuItems
  | _ => MenuItems (length items) (menu_view <$> items)
  end.

(** GET /api/menus/:supplierId: the parameter is matched against [gst]. *)
Definition get_menus (supplierId : string) (s : state) : catalog_reply :=
  MenuDocuments (filter (λ m, Menu.gst m = Some supplierId) (menus s)).

(** POST /api/vendorcart.  After the check of the required fields the handler
    evaluates [new VendorCart(...)]; the file binds [vendorCartSchema] but no
    [VendorCart], so the evaluation throws a ReferenceError, which the
    [catch] turns into the 500 answer. *)
Definition post_vendorcart (body : jobject) (s : state) : state * catalog_reply :=
  if all_truthy cart_fields body
  then (s, InternalError "Internal Server Error")
  else (s, BadRequest "Missing required fields").

(** GET /api/all-users: [find({}, '-password')] leaves the password out. *)
Definition without_password (a : account) : account :=
  {| _id := _id a; fullName := fullName a; email := email a; phone := phone a;
     password := None; aadhar := aadhar a; gst := gst a; verified := verified a;
     shoploc := shoploc a; shopname := shopname a |}.

Definition all_users (s : state) : response :=
  Json 200 (Users (without_password <$> vendors s)
                  ((λ d : supplier, {| profile := without_password d;
                            shopStatus := shopStatus d |}) <$> suppliers s)).

(** ** Every request that can change the state *)

Inductive api_request : Type :=
| Core (r : request)
| PostSupplierMenu (body : jobject) (fresh : oid)
| PostVendorCart (body : jobject).

Section Api.
Variable castObjectId : string → option oid.
Variable parseDate : string → option Z.
Variable toNumber : string → option Z.

Definition serve (r : api_request) (s : state) : state :=
  match r with
  | Core r => (handle castObjectId parseDate r s).1
  | PostSupplierMenu body fresh => (post_supplier_menu toNumber body fresh s).1
  | PostVendorCart body => (post_vendorcart body s).1
  end.

(** The states the server reaches from an empty database. *)
Inductive api_reachable : state → Prop :=
| api_reachable_init d : api_reachable (with_disk d empty_state)
| api_reachable_step r s : api_reachable s → api_reachable (serve r s).
End Api.

(** ** The pending list after registration, approval and rejection *)

Lemma filter_keeps_all {A} (P : A → Prop) `{∀ x, Decision (P x)} (l : list A) :
  Forall P l → filter P l = l.
Proof.
  induction 1 as [|x xs Hx _ IH]; [done|]. by rewrite filter_cons_True, IH.
Qed.

Lemma Forall_filter_keep {A} (P Q : A → Prop) `{∀ x, Decision (Q x)} (l : list A) :
  Forall P l → Forall P (filter Q l).
Proof.
  intros Hl. apply Forall_forall. intros x [_ Hx]%list_elem_of_filter.
  rewrite Forall_forall in Hl. by apply Hl.
Qed.

Lemma filter_swap {A} (P Q : A → Prop) `{∀ x, Decision (P x)} `{∀ x, Decision (Q x)}
    (l : list A) :
  filter P (filter Q l) = filter Q (filter P l).
Proof.
  rewrite !list_filter_filter. apply list_filter_iff.
  intros x; split; intros [? ?]; by split.
Qed.

Lemma unique_ids_cons {D} `{Document D} (x : D) (xs : list D) :
  Collection.unique_ids (x :: xs) →
  Forall (λ d, doc_id d ≠ doc_id x) xs ∧ Collection.unique_ids xs.
Proof.
  unfold Collection.unique_ids. cbn. intros [Hx Hxs]%NoDup_cons. split; [|done].
  apply Forall_forall. intros d Hd Heq. apply Hx, list_elem_of_fmap. by exists d.
Qed.

Section Decisions.
Context {D : Type} `{Document D}.

(** Under the unique index, deleting by id removes exactly the documents of
    that id. *)
Lemma findByIdAndDelete_filter (i : oid) (docs : list D) :
  Collection.unique_ids docs →
  (Collection.findByIdAndDelete i docs).1 = filter (λ d, doc_id d ≠ i) docs.
Proof.
  unfold Collection.findByIdAndDelete.
  induction docs as [|x xs IH]; [done|]. intros [Hx Hxs]%unique_ids_cons.
  cbn [Collection.findOneAndDelete]. unfold Collection.has_id at 1. case_bool_decide as Hi.
  - cbn [fst]. subst i. rewrite filter_cons_False by (intros Hne; by apply Hne).
    symmetry. by apply filter_keeps_all.
  - destruct (Collection.findOneAndDelete _ xs) as [ds r]. cbn [fst] in *.
    rewrite filter_cons_True by done. by rewrite IH.
Qed.

(** Under the unique index, an update by id that makes the document fail [P]
    takes the documents of that id, and no other, out of those that
    satisfy [P]. *)
Lemma findByIdAndUpdate_filter (P : D → Prop) `{∀ d, Decision (P d)}
    (upd : D → D) (i : oid) (docs : list D) :
  (∀ d, ¬ P (upd d)) →
  Collection.unique_ids docs →
  filter P (Collection.findByIdAndUpdate i upd docs).1
  = filter (λ d, doc_id d ≠ i) (filter P docs).
Proof.
  intros Hupd. unfold Collection.findByIdAndUpdate.
  induction docs as [|x xs IH]; [done|]. intros [Hx Hxs]%unique_ids_cons.
  cbn [Collection.findOneAndUpdate]. unfold Collection.has_id at 1. case_bool_decide as Hi.
  - cbn [fst]. subst i. rewrite filter_cons_False by apply Hupd.
    assert (Hrest : filter (λ d, doc_id d ≠ doc_id x) (filter P xs) = filter P xs)
      by (by apply filter_keeps_all, Forall_filter_keep).
    destruct (decide (P x)).
    + rewrite (filter_cons_True P) by done.
      rewrite filter_cons_False by (intros Hne; by apply Hne). by rewrite Hrest.
    + rewrite (filter_cons_False P) by done. by rewrite Hrest.
  - destruct (Collection.findOneAndUpdate _ upd xs) as [ds r]. cbn [fst] in *.
    destruct (decide (P x)).
    + rewrite !(filter_cons_True P) by done. rewrite filter_cons_True by done.
      by rewrite IH.
    + rewrite !(filter_cons_False P) by done. by apply IH.
Qed.
End Decisions.

Section Pending.
Variable castObjectId : string → option oid.

(** X1.  Approve and Reject have the same effect on the pending list: under
    the unique index on [_id], after [verify_user] or [reject_user] on a
    well-formed id, [unverified_users] lists what it listed before for that
    role, in the same order, without the account of that id; the list of the
    other role is as before. *)
Theorem pending_after_decision id i s vs ss :
  castObjectId id = Some i →
  Collection.unique_ids (vendors s) → Collection.unique_ids (suppliers s) →
  unverified_users s = Json 200 (Users vs ss) →
  let without_i := Json 200 (Users (filter (λ a, _id a ≠ i) vs) ss) in
  let without_i' := Json 200 (Users vs (filter (λ d : supplier, _id d ≠ i) ss)) in
  unverified_users (verify_user castObjectId (Some (JStr "vendor")) id s).1 = without_i ∧
  unverified_users (reject_user castObjectId "vendor" id s).1 = without_i ∧
  unverified_users (verify_user castObjectId (Some (JStr "supplier")) id s).1 = without_i' ∧
  unverified_users (reject_user castObjectId "supplier" id s).1 = without_i'.
Proof.
  intros Hi Hv Hs [= <- <-] w w'. subst w w'.
  unfold verify_user, reject_user, unverified_users. rewrite Hi.
  rewrite !decide_True by done.
  rewrite (decide_False (P := Some (JStr "supplier") = Some (JStr "vendor"))) by done.
  rewrite (decide_False (P := "supplier" = "vendor")) by done.
  cbn [fst vendors suppliers with_vendors with_suppliers].
  split_and!; do 2 f_equal.
  - apply (findByIdAndUpdate_filter (D:=account) unverified); [|done].
    intros d Hd. by apply Hd.
  - rewrite (findByIdAndDelete_filter (D:=account)) by done. apply filter_swap.
  - apply (findByIdAndUpdate_filter (D:=supplier) (λ d : supplier, unverified d)); [|done].
    intros d Hd. by apply Hd.
  - rewrite (findByIdAndDelete_filter (D:=supplier)) by done.
    apply (filter_swap (λ d : supplier, unverified d)).
Qed.

End Pending.

(** ** Login *)

(** What a login route reads of an account. *)
Definition credentials (a : account) :=
  (email a, phone a, password a, gst a, shopname a).

Lemma login_as_ext {D E} (f : D → account) (g : E → account) role userId pass
    (ds : list D) (es : list E) :
  (λ d, credentials (f d)) <$> ds = (λ e, credentials (g e)) <$> es →
  login_as f role userId pass ds = login_as g role userId pass es.
Proof.
  unfold login_as. revert es.
  induction ds as [|d ds IH]; intros [|e es]; cbn; try done.
  intros [= He Hp Hw Hg Hs Hrest]. unfold identified_by. rewrite He, Hp.
  destruct (_ || _); [by rewrite Hw, Hg, Hs | by apply IH].
Qed.

Lemma findOneAndUpdate_fmap {D B} (f : D → B) (p : D → bool) (upd : D → D)
    (docs : list D) :
  (∀ d, f (upd d) = f d) →
  f <$> (Collection.findOneAndUpdate p upd docs).1 = f <$> docs.
Proof.
  intros Hupd. induction docs as [|x xs IH]; [done|].
  cbn [Collection.findOneAndUpdate]. destruct (p x).
  - cbn. by rewrite Hupd.
  - destruct (Collection.findOneAndUpdate p upd xs) as [ds r]. cbn in *. by rewrite IH.
Qed.

Lemma find_app_Some {A} (f : A → bool) (l k : list A) x :
  List.find f l = Some x → List.find f (l ++ k) = Some x.
Proof. induction l as [|y l IH]; cbn; [done|]. destruct (f y); auto. Qed.



Section Login.
Variable castObjectId : string → option oid.

(** X3.  Login does not look at [verified]: whatever account
    [verify_user] approves, both login routes answer every user id and
    password after the approval as they did before it. *)
Theorem login_ignores_verification userType id userId pass s :
  let s' := (verify_user castObjectId userType id s).1 in
  vendor_login userId pass s' = vendor_login userId pass s ∧
  supplier_login userId pass s' = supplier_login userId pass s.
Proof.
  unfold verify_user, vendor_login, supplier_login.
  destruct (decide (userType = Some (JStr "vendor"))) as [Hu|Hu].
  - destruct (castObjectId id) as [i|]; [|done]. cbn. split; [|done].
    apply login_as_ext. unfold Collection.findByIdAndUpdate.
    by apply (findOneAndUpdate_fmap credentials).
  - destruct (decide (userType = Some (JStr "supplier"))) as [Hu'|Hu']; [|done].
    destruct (castObjectId id) as [i|]; [|done]. cbn. split; [done|].
    apply login_as_ext. unfold Collection.findByIdAndUpdate.
    by apply (findOneAndUpdate_fmap (λ d : supplier, credentials d)).
Qed.


(** X5.  Email and phone are not unique, and login consults the first
    account only: when a vendor stored before is identified by a user id, no
    later registration changes what [vendor_login] answers for that user id,
    so an account registered under an email or phone already in use cannot be
    logged into with it. *)
Theorem login_first_account_wins body fresh userId pass s :
  Exists (λ a, identified_by userId a = true) (vendors s) →
  vendor_login userId pass (register castObjectId body fresh s).1
  = vendor_login userId pass s.
Proof.
  intros Hex. unfold register.
  destruct (new_account _ body fresh) as [a|]; cbn [mbind option_bind]; [|done].
  destruct (Collection.insertOne a (vendors s)) as [vs|] eqn:Hins; [|done].
  apply insertOne_Some in Hins as ->. cbn [fst]. unfold vendor_login, login_as. cbn.
  destruct (List.find (λ d, identified_by userId d) (vendors s)) as [x|] eqn:Hfind.
  - by rewrite (find_app_Some _ _ _ x).
  - apply Exists_exists in Hex as (x & Hx & Hid).
    apply list_elem_of_In in Hx.
    by rewrite (find_none _ _ Hfind x Hx) in Hid.
Qed.
End Login.

(** ** Outcomes of a grievance submission *)


(** The loop, completed or not, touches the paths of its files only. *)
Lemma unlink_all_others fs : ∀ d k,
  k ∉ path <$> fs → (unlink_all fs d).1 !! k = d !! k.
Proof.
  induction fs as [|f fs IH]; intros d k Hk; cbn; [done|].
  destruct (d !! path f); [|done]. cbn in Hk. apply not_elem_of_cons in Hk as [Hne Hk].
  rewrite IH by done. by apply lookup_delete_ne.
Qed.

Lemma insertOne_Some_fresh {D} `{Document D} (d : D) (docs docs' : list D) :
  Collection.insertOne d docs = Some docs' →
  Forall (λ x, doc_id x ≠ doc_id d) docs.
Proof.
  unfold Collection.insertOne. destruct (existsb _ docs) eqn:E; [done|]. intros _.
  apply Forall_forall. intros x Hx Heq.
  assert (existsb (Collection.has_id (doc_id d)) docs = true); [|congruence].
  apply existsb_exists. exists x. split; [by apply list_elem_of_In|].
  by apply bool_decide_eq_true.
Qed.

Section Submission.
Variable castObjectId : string → option oid.
Variable parseDate : string → option Z.



(** X7.  A submission is all or nothing on the database and never touches
    what is not its own: accounts, menus and cart entries are as before, a
    file that is not one of the staged files of the request is as before, and
    either the whole state is unchanged and the answer is 500, or the ledger
    has gained one entry. *)
Theorem submit_grievance_all_or_nothing body files fresh s :
  let res := submit_grievance castObjectId parseDate body (Some files) fresh s in
  vendors res.1 = vendors s ∧ suppliers res.1 = suppliers s ∧
  menus res.1 = menus s ∧ vendorcarts res.1 = vendorcarts s ∧
  (∀ k, k ∉ path <$> files → disk res.1 !! k = disk s !! k) ∧
  (res = (s, submission_failed) ∨ ∃ g, grievances res.1 = grievances s ++ [g]).
Proof.
  unfold submit_grievance. change (default [] (Some files)) with files.
  destruct (mapM _ files) as [atts|]; [|cbn; split_and!; by eauto].
  destruct (new_grievance _ _ body atts fresh) as [g|]; cbn [mbind option_bind];
    [|cbn; split_and!; by eauto].
  destruct (Collection.insertOne g (grievances s)) as [gs|] eqn:Hins;
    [|cbn; split_and!; by eauto].
  apply insertOne_Some in Hins as ->.
  pose proof (unlink_all_others files (disk s)) as Hothers.
  destruct (unlink_all files (disk s)) as [d c]. cbn in *.
  split_and!; try done. right. by eexists.
Qed.

End Submission.

(** ** Catalogue *)

Lemma truthy_castString v : truthy v = true → is_Some (castString v).
Proof. destruct v as [[|b|n|s]|]; cbn; try done; by eexists. Qed.

Lemma all_truthy_field fields body k :
  all_truthy fields body = true → k ∈ fields → truthy (body !! k) = true.
Proof.
  unfold all_truthy. rewrite forallb_forall. intros Hall Hk.
  by apply Hall, list_elem_of_In.
Qed.

Section CatalogFacts.
Variable toNumber : string → option Z.

(** X9.  Adding a menu item and listing it back.  When
    [post_supplier_menu] answers 201, exactly one document was appended to
    the menus, the answer shows that document, the document carries a phone,
    and both listings by that phone now end with it: the store route returns
    the former documents of the phone followed by the new one, the menu route
    answers with one more item and never 404.  The listings of every other
    phone are as before. *)
Theorem post_supplier_menu_then_list body fresh s s' item :
  post_supplier_menu toNumber body fresh s = (s', MenuCreated item) →
  ∃ m p,
    menus s' = menus s ++ [m] ∧ item = menu_view m ∧ Menu._id m = fresh ∧
    Menu.phone m = Some p ∧
    get_supplier_store p s' = MenuDocuments (menus_of_phone p s ++ [m]) ∧
    get_supplier_menu p s'
    = MenuItems (S (length (menus_of_phone p s)))
                ((menu_view <$> menus_of_phone p s) ++ [item]) ∧
    ∀ q, q ≠ p →
      get_supplier_store q s' = get_supplier_store q s ∧
      get_supplier_menu q s' = get_supplier_menu q s.
Proof.
  unfold post_supplier_menu. destruct (all_truthy menu_fields body) eqn:Hall; [|done].
  destruct (new_menu toNumber body fresh) as [m|] eqn:Hnew; [|done].
  destruct (Collection.insertOne m (menus s)) as [ms|] eqn:Hins; [|done].
  apply insertOne_Some in Hins as ->. intros [= <- <-].
  destruct (truthy_castString (body !! "phone")) as [p Hp].
  { apply (all_truthy_field menu_fields); [done | repeat constructor]. }
  assert (Hm : Menu._id m = fresh ∧ Menu.phone m = Some p).
  { unfold new_menu in Hnew. destruct (Number toNumber (body !! "itemcost")); [|done].
    destruct (Number toNumber (body !! "todaysstock")); [|done]. cbn in Hnew.
    injection Hnew as <-. by cbn. }
  destruct Hm as [Hid Hphone]. exists m, p.
  assert (Hlist : menus_of_phone p (with_menus (menus s ++ [m]) s)
                  = menus_of_phone p s ++ [m]).
  { unfold menus_of_phone. cbn. rewrite filter_app. f_equal.
    by rewrite filter_cons_True. }
  split_and!; try done.
  - unfold get_supplier_store. by rewrite Hlist.
  - unfold get_supplier_menu. rewrite Hlist.
    destruct (menus_of_phone p s ++ [m]) as [|x xs] eqn:E.
    + by destruct (menus_of_phone p s).
    + rewrite <- E. rewrite length_app, fmap_app. cbn. f_equal. lia.
  - intros q Hq.
    assert (Hq' : menus_of_phone q (with_menus (menus s ++ [m]) s) = menus_of_phone q s).
    { unfold menus_of_phone. cbn. rewrite filter_app, filter_cons_False, filter_nil.
      - apply app_nil_r.
      - rewrite Hphone. congruence. }
    unfold get_supplier_store, get_supplier_menu. by rewrite Hq'.
Qed.

(** X10.  A menu item of which one of the six fields is absent, null,
    [false], the number 0 or the empty string is refused with 400 and nothing
    is stored; a cost or a stock of 0, sent as a number, is such a field. *)
Theorem post_supplier_menu_refuses_falsy body fresh s :
  Exists (λ k, truthy (body !! k) = false) menu_fields →
  post_supplier_menu toNumber body fresh s = (s, BadRequest "All fields are required").
Proof.
  intros Hex. unfold post_supplier_menu.
  destruct (all_truthy menu_fields body) eqn:Hall; [|done].
  apply Exists_exists in Hex as (k & Hk & Hfalse).
  by rewrite (all_truthy_field _ _ _ Hall Hk) in Hfalse.
Qed.
End CatalogFacts.

(** ** Invariants of the whole API *)

(** A menu item with its six fields present. *)
Definition menu_complete (m : Menu.t) : Prop :=
  is_Some (Menu.phone m) ∧ is_Some (Menu.shopname m) ∧ is_Some (Menu.gst m) ∧
  is_Some (Menu.itemname m) ∧ is_Some (Menu.itemcost m) ∧ is_Some (Menu.todaysstock m).

Definition api_ok (s : state) : Prop :=
  store_ok s ∧ Collection.unique_ids (menus s) ∧ Forall menu_complete (menus s) ∧
  vendorcarts s = [].

Lemma findOneAndUpdate_elem {D} (p : D → bool) (upd : D → D) (docs : list D) x :
  x ∈ (Collection.findOneAndUpdate p upd docs).1 →
  x ∈ docs ∨ ∃ y, y ∈ docs ∧ x = upd y.
Proof.
  induction docs as [|d ds IH]; [cbn; by intros ?%elem_of_nil|].
  cbn [Collection.findOneAndUpdate]. destruct (p d).
  - cbn. intros [->|Hx]%elem_of_cons.
    + right. exists d. split; [by left | done].
    + left. by right.
  - destruct (Collection.findOneAndUpdate p upd ds) as [ds' r]. cbn in *.
    intros [->|Hx]%elem_of_cons; [left; by left|].
    destruct (IH Hx) as [Hin | (y & Hy & ->)]; [left; by right|].
    right. exists y. split; [by right | done].
Qed.

Lemma findOneAndDelete_elem {D} (p : D → bool) (docs : list D) x :
  x ∈ (Collection.findOneAndDelete p docs).1 → x ∈ docs.
Proof.
  induction docs as [|d ds IH]; [cbn; by intros ?%elem_of_nil|].
  cbn [Collection.findOneAndDelete]. destruct (p d).
  - cbn. intros Hx. by right.
  - destruct (Collection.findOneAndDelete p ds) as [ds' r]. cbn in *.
    intros [->|Hx]%elem_of_cons; [by left | right; by apply IH].
Qed.

Section ApiFacts.
Variable castObjectId : string → option oid.
Variable parseDate : string → option Z.
Variable toNumber : string → option Z.

(** The account and grievance routes leave the catalogue and the cart alone. *)
Lemma handle_catalog_frame r s :
  menus (handle castObjectId parseDate r s).1 = menus s ∧
  vendorcarts (handle castObjectId parseDate r s).1 = vendorcarts s.
Proof.
  destruct r as [body fresh|body fresh|body files fresh|ut id|type id|ph st]; cbn [handle].
  - unfold register. by destruct (_ ≫= _).
  - unfold supplier_register. by destruct (_ ≫= _).
  - unfold submit_grievance. destruct (mapM _ _); [|done].
    destruct (_ ≫= _); [|done]. by destruct (unlink_all _ _).
  - unfold verify_user.
    destruct (decide _); [|destruct (decide _)]; by destruct (castObjectId id).
  - unfold reject_user.
    destruct (decide _); [|destruct (decide _)]; by destruct (castObjectId id).
  - unfold shop_status. destruct st as [[| | |]|]; try done.
    destruct (truthy ph); [|done].
    by destruct (Collection.findOneAndUpdate _ _ (suppliers s)) as [ss [d|]].
Qed.

(** X11.  Every state the server reaches from an empty database keeps the
    unique index on [_id] in the vendors, the suppliers and the menus, has
    only ledger entries posted by "vendor" or "supplier", has only menu items
    with their six fields present, and has no cart entry at all: no request
    ever stores one. *)
Theorem api_reachable_ok s :
  api_reachable castObjectId parseDate toNumber s → api_ok s.
Proof.
  induction 1 as [d|r s _ (Hstore & Hmenus & Hcomplete & Hcart)].
  - split_and!; [split_and! | | | ];
      first [apply NoDup_nil_2 | constructor | reflexivity].
  - destruct r as [r|body fresh|body]; cbn [serve].
    + destruct (handle_catalog_frame r s) as [Hm Hc].
      split_and!; [by apply handle_store_ok | by rewrite Hm | by rewrite Hm | by rewrite Hc].
    + unfold post_supplier_menu.
      destruct (all_truthy menu_fields body) eqn:Hall; [|done].
      destruct (new_menu toNumber body fresh) as [m|] eqn:Hnew; [|done].
      destruct (Collection.insertOne m (menus s)) as [ms|] eqn:Hins; [|done].
      cbn [fst]. split_and!; try done.
      * by eapply (insertOne_unique m).
      * apply insertOne_Some in Hins as ->. cbn. apply Forall_app. split; [done|].
        constructor; [|constructor].
        unfold new_menu in Hnew. destruct (Number _ (body !! "itemcost")); [|done].
        destruct (Number _ (body !! "todaysstock")); [|done]. cbn in Hnew.
        injection Hnew as <-. unfold menu_complete. cbn.
        split_and!; try (by eexists);
          apply truthy_castString, (all_truthy_field menu_fields); try done;
          repeat constructor.
    + unfold post_vendorcart. by destruct (all_truthy cart_fields body).
Qed.

(** X12.  The ledger and the catalogue are append-only, and the cart is
    never written: whatever the request, the grievances and the menus stored
    before it are still there after it, unchanged and in their place, any new
    one coming after them, and the cart entries are the same. *)
Theorem serve_append_only r s :
  let s' := serve castObjectId parseDate toNumber r s in
  grievances s `prefix_of` grievances s' ∧
  menus s `prefix_of` menus s' ∧
  vendorcarts s' = vendorcarts s.
Proof.
  destruct r as [r|body fresh|body]; cbn [serve].
  - destruct (handle_catalog_frame r s) as [Hm Hc]. rewrite Hm, Hc.
    split_and!; try done.
    destruct r as [body fresh|body fresh|body files fresh|ut id|type id|ph st];
      cbn [handle].
    + unfold register. by destruct (_ ≫= _).
    + unfold supplier_register. by destruct (_ ≫= _).
    + unfold submit_grievance. destruct (mapM _ _); [|done].
      destruct (new_grievance _ _ _ _ _) as [g|]; cbn [mbind option_bind]; [|done].
      destruct (Collection.insertOne g (grievances s)) as [gs|] eqn:Hins; [|done].
      apply insertOne_Some in Hins as ->. destruct (unlink_all _ _). cbn.
      by apply prefix_app_r.
    + unfold verify_user.
      destruct (decide _); [|destruct (decide _)]; by destruct (castObjectId id).
    + unfold reject_user.
      destruct (decide _); [|destruct (decide _)]; by destruct (castObjectId id).
    + unfold shop_status. destruct st as [[| | |]|]; try done.
      destruct (truthy ph); [|done].
      by destruct (Collection.findOneAndUpdate _ _ (suppliers s)) as [ss [d|]].
  - unfold post_supplier_menu. destruct (all_truthy _ _); [|done].
    destruct (new_menu _ _ _) as [m|]; [|done].
    destruct (Collection.insertOne m (menus s)) as [ms|] eqn:Hins; [|done].
    apply insertOne_Some in Hins as ->. cbn. split_and!; try done. by apply prefix_app_r.
  - unfold post_vendorcart. by destruct (all_truthy _ _).
Qed.

(** X13.  No request edits a stored account beyond its flags: a vendor found
    after a request is a vendor stored before it, or one stored before it
    with [verified] set to true, or a new document whose [_id] no vendor had;
    a supplier likewise, its [shopStatus] being the only other field a
    request can set.  So an approval is never undone, and no email, phone or
    password is ever changed. *)
Theorem serve_accounts_stable r s :
  let s' := serve castObjectId parseDate toNumber r s in
  (∀ a', a' ∈ vendors s' →
     a' ∈ vendors s ∨ (∃ a, a ∈ vendors s ∧ a' = set_verified a) ∨
     Forall (λ a, _id a ≠ _id a') (vendors s)) ∧
  (∀ d' : supplier, d' ∈ suppliers s' →
     d' ∈ suppliers s ∨
     (∃ d, d ∈ suppliers s ∧
           (d' = set_verified_supplier d ∨ ∃ b, d' = set_shopStatus b d)) ∨
     Forall (λ d : supplier, _id d ≠ _id d') (suppliers s)).
Proof.
  assert (Hsame : ∀ s0 : state, vendors s0 = vendors s → suppliers s0 = suppliers s →
            (∀ a', a' ∈ vendors s0 →
               a' ∈ vendors s ∨ (∃ a, a ∈ vendors s ∧ a' = set_verified a) ∨
               Forall (λ a, _id a ≠ _id a') (vendors s)) ∧
            (∀ d' : supplier, d' ∈ suppliers s0 →
               d' ∈ suppliers s ∨
               (∃ d, d ∈ suppliers s ∧
                     (d' = set_verified_supplier d ∨ ∃ b, d' = set_shopStatus b d)) ∨
               Forall (λ d : supplier, _id d ≠ _id d') (suppliers s))).
  { intros s0 -> ->. split; intros x Hx; by left. }
  destruct r as [r|body fresh|body]; cbn [serve].
  - destruct r as [body fresh|body fresh|body files fresh|ut id|type id|ph st];
      cbn [handle].
    + unfold register.
      destruct (new_account _ body fresh) as [a|]; cbn [mbind option_bind];
        [|by apply Hsame].
      destruct (Collection.insertOne a (vendors s)) as [vs|] eqn:Hins; [|by apply Hsame].
      pose proof (insertOne_Some_fresh _ _ _ Hins) as Hfresh.
      apply insertOne_Some in Hins as ->. cbn. split; [|intros d' Hd'; by left].
      intros a' [Ha'|Hnew]%elem_of_app; [by left|].
      apply list_elem_of_singleton in Hnew as ->. right. right. exact Hfresh.
    + unfold supplier_register.
      destruct (new_supplier _ body fresh) as [a|]; cbn [mbind option_bind];
        [|by apply Hsame].
      destruct (Collection.insertOne a (suppliers s)) as [vs|] eqn:Hins; [|by apply Hsame].
      pose proof (insertOne_Some_fresh _ _ _ Hins) as Hfresh.
      apply insertOne_Some in Hins as ->. cbn. split; [intros d' Hd'; by left|].
      intros a' [Ha'|Hnew]%elem_of_app; [by left|].
      apply list_elem_of_singleton in Hnew as ->. right. right. exact Hfresh.
    + apply Hsame; unfold submit_grievance; (destruct (mapM _ _); [|done]);
        (destruct (_ ≫= _); [|done]); by destruct (unlink_all _ _).
    + unfold verify_user.
      destruct (decide _); [|destruct (decide _)];
        try by apply Hsame.
      * destruct (castObjectId id) as [i|]; [|by apply Hsame]. cbn.
        split; [|intros d' Hd'; by left].
        intros a' [Hin | (a & Ha & ->)]%findOneAndUpdate_elem; [by left|].
        right. left. by exists a.
      * destruct (castObjectId id) as [i|]; [|by apply Hsame]. cbn.
        split; [intros d' Hd'; by left|].
        intros a' [Hin | (a & Ha & ->)]%findOneAndUpdate_elem; [by left|].
        right. left. exists a. split; [done | by left].
    + unfold reject_user.
      destruct (decide _); [|destruct (decide _)];
        try by apply Hsame.
      * destruct (castObjectId id) as [i|]; [|by apply Hsame]. cbn.
        split; [|intros d' Hd'; by left].
        intros a' Hin%findOneAndDelete_elem. by left.
      * destruct (castObjectId id) as [i|]; [|by apply Hsame]. cbn.
        split; [intros d' Hd'; by left|].
        intros a' Hin%findOneAndDelete_elem. by left.
    + unfold shop_status. destruct st as [[|b| |]|]; try by apply Hsame.
      destruct (truthy ph); [|by apply Hsame].
      destruct (Collection.findOneAndUpdate _ _ (suppliers s)) as [ss [d|]] eqn:E;
        [|by apply Hsame].
      cbn. split; [intros d' Hd'; by left|].
      replace ss with (Collection.findOneAndUpdate (phone_is ph) (set_shopStatus b)
                         (suppliers s)).1 by (by rewrite E).
      intros a' [Hin | (a & Ha & ->)]%findOneAndUpdate_elem; [by left|].
      right. left. exists a. split; [done | right; by exists b].
  - apply Hsame; unfold post_supplier_menu; (destruct (all_truthy _ _); [|done]);
      (destruct (new_menu _ _ _); [|done]); by destruct (Collection.insertOne _ _).
  - apply Hsame; unfold post_vendorcart; by destruct (all_truthy _ _).
Qed.
End ApiFacts.

(** ** Staging of uploads *)

(** [filename: (req, file, cb) => cb(null, Date.now() + '-' + file.originalname)] *)
Definition upload_filename (now : Z) (originalname : string) : string :=
  (number_toString now ++ "-" ++ originalname)%string.

(** The path of a staged file: the filename joined to the destination
    ['uploads/'].  The original name of an upload is a base name, without a
    separator, so the join is a concatenation. *)
Definition upload_path (now : Z) (originalname : string) : string :=
  ("uploads/" ++ upload_filename now originalname)%string.

Fixpoint no_dash (s : string) : bool :=
  match s with
  | EmptyString => true
  | String c s' => negb (Ascii.eqb c "-") && no_dash s'
  end.

Lemma digits_no_dash d : no_dash (NilEmpty.string_of_uint d) = true.
Proof. induction d; cbn; done. Qed.

Lemma split_at_dash a : ∀ b x y,
  no_dash a = true → no_dash b = true →
  (a ++ String "-" x)%string = (b ++ String "-" y)%string → a = b ∧ x = y.
Proof.
  induction a as [|c a IH]; intros [|c' b] x y Ha Hb; cbn in *.
  - by intros [= ->].
  - intros [= <- _]. done.
  - intros [= -> _]. done.
  - apply andb_true_iff in Ha as [_ Ha]. apply andb_true_iff in Hb as [_ Hb].
    intros [= -> Hrest]. destruct (IH _ _ _ Ha Hb Hrest) as [-> ->]. done.
Qed.

Lemma number_toString_digits n :
  (0 ≤ n)%Z → ∃ d, number_toString n = NilEmpty.string_of_uint d ∧ Z.to_int n = Decimal.Pos d.
Proof.
  intros Hn. destruct n as [|p|p]; [by exists (Decimal.D0 Decimal.Nil) | | lia].
  exists (Pos.to_uint p). split; [|done]. unfold number_toString. cbn.
  pose proof (DecimalPos.Unsigned.to_uint_nonnil p). by destruct (Pos.to_uint p).
Qed.

(** X14.  Two uploads are staged at the same path only when they have the
    same original name and were named in the same millisecond. *)
Theorem upload_path_injective now1 name1 now2 name2 :
  (0 ≤ now1)%Z → (0 ≤ now2)%Z →
  upload_path now1 name1 = upload_path now2 name2 →
  now1 = now2 ∧ name1 = name2.
Proof.
  intros H1 H2. unfold upload_path, upload_filename. intros [= Heq].
  destruct (number_toString_digits now1 H1) as (d1 & E1 & I1).
  destruct (number_toString_digits now2 H2) as (d2 & E2 & I2).
  rewrite E1, E2 in Heq.
  apply split_at_dash in Heq as [Hd ->]; [|apply digits_no_dash..].
  split; [|done]. apply Stdlib.Numbers.DecimalZ.to_int_inj. rewrite I1, I2. f_equal.
  assert (Some d1 = Some d2) as [= ->]; [|done].
  by rewrite <- !NilEmpty.usu, Hd.
Qed.

(** ** Further facts *)

(** X15.  The base64 text of [n] bytes has 4⌈n/3⌉ characters: it is empty
    exactly for an empty file, and otherwise a whole number of four-character
    groups. *)
Theorem base64_length bs :
  String.length (Base64.encode bs) = 4 * ((length bs + 2) / 3).
Proof.
  induction bs as [|a|a b|a b c rest IH] using Base64.list_ind3; try reflexivity.
  cbn [Base64.encode String.length length]. rewrite IH.
  replace (S (S (S (length rest))) + 2) with (length rest + 2 + 1 * 3) by lia.
  rewrite Nat.div_add by done. lia.
Qed.

(** X16.  For the shop status the last write wins: two updates for the same
    phone, one after the other, leave the state and give the answer of the
    second one alone. *)
Theorem shop_status_last_write_wins q b1 b2 s :
  shop_status q (Some (JBool b2)) (shop_status q (Some (JBool b1)) s).1
  = shop_status q (Some (JBool b2)) s.
Proof.
  unfold shop_status. destruct (truthy q); [|done].
  destruct (first_match (phone_is q) (suppliers s))
    as [Hnone | (pre & d & post & Hsplit & Hpre & Hd)].
  - rewrite (findOneAndUpdate_none _ (set_shopStatus b1)) by done. cbn.
    by rewrite (findOneAndUpdate_none _ (set_shopStatus b2)).
  - rewrite Hsplit.
    rewrite (findOneAndUpdate_first _ (set_shopStatus b1)) by done. cbn.
    by rewrite !(findOneAndUpdate_first _ (set_shopStatus b2)).
Qed.

Section SubmitThenList.
Variable castObjectId : string → option oid.
Variable parseDate : string → option Z.

End SubmitThenList.

(** ** The further theorems at sample inputs *)

(** [Number(s)] on the decimal integers. *)
Definition integer_of_string (s : string) : option Z :=
  Z.of_int <$> NilZero.int_of_string s.

Definition samosa_body : jobject :=
  {[ "phone" := JStr "9800000001"; "shopname" := JStr "Chaat Corner";
     "gst" := JStr "29ABCDE1234F1Z5"; "itemname" := JStr "Samosa";
     "itemcost" := JNum (SafeInteger 20 I); "todaysstock" := JStr "50" ]}.

Definition samosa : Menu.t :=
  {| Menu._id := id_a; Menu.phone := Some "9800000001";
     Menu.shopname := Some "Chaat Corner"; Menu.gst := Some "29ABCDE1234F1Z5";
     Menu.itemname := Some "Samosa"; Menu.itemcost := Some 20%Z;
     Menu.todaysstock := Some 50%Z |}.



Example sample_file_path : upload_path 1700000000000 "bill.png" = path sample_file.
Proof. reflexivity. Qed.

Lemma vendors_state_unique : Collection.unique_ids (vendors vendors_state).
Proof.
  unfold Collection.unique_ids. cbn.
  apply NoDup_cons. split; [|apply NoDup_singleton].
  intros Hin%list_elem_of_singleton. discriminate.
Defined.



Lemma pending_after_decision_witness :
  unverified_users (verify_user hex24 (Some (JStr "vendor")) id_a vendors_state).1
  = Json 200 (Users [] []) ∧
  unverified_users (reject_user hex24 "vendor" id_a vendors_state).1
  = Json 200 (Users [] []).
Proof.
  destruct (pending_after_decision hex24 id_a id_a vendors_state
              [sample_account id_a "9800000001" false] []
              eq_refl vendors_state_unique (NoDup_nil_2 (A:=oid)) eq_refl)
    as (Hv & Hr & _).
  split; [exact Hv | exact Hr].
Defined.



Lemma login_first_account_wins_witness :
  vendor_login "asha@example.in" "tiffin"
    (register hex24 {[ "email" := JStr "asha@example.in"; "password" := JStr "tiffin" ]}
       "64b7f3a2c1d4e5f6a7b8c9d2" vendors_state).1
  = InvalidCredentials.
Proof.
  rewrite login_first_account_wins; [reflexivity|].
  apply Exists_cons_hd. reflexivity.
Defined.


Lemma submit_grievance_all_or_nothing_witness :
  let res := submit_grievance hex24 millis ∅ (Some [sample_file]) id_a staged_state in
  res = (staged_state, submission_failed) ∧
  disk res.1 !! "uploads/1700000000000-menu.png"
  = disk staged_state !! "uploads/1700000000000-menu.png".
Proof.
  intros res.
  destruct (submit_grievance_all_or_nothing hex24 millis ∅ [sample_file] id_a staged_state)
    as (_ & _ & _ & _ & Hothers & _).
  split; [reflexivity|]. apply Hothers.
  intros Hin%list_elem_of_singleton. discriminate.
Defined.


Lemma post_supplier_menu_then_list_witness :
  ∃ m p,
    menus (post_supplier_menu integer_of_string samosa_body id_a empty_state).1 = [m] ∧
    Menu.phone m = Some p ∧
    get_supplier_menu p (post_supplier_menu integer_of_string samosa_body id_a empty_state).1
    = MenuItems 1 [menu_view samosa].
Proof.
  destruct (post_supplier_menu_then_list integer_of_string samosa_body id_a empty_state
              (with_menus [samosa] empty_state) (menu_view samosa))
    as (m & p & Hmenus & _ & _ & Hphone & _ & Hmenu & _).
  - vm_compute. reflexivity.
  - exists m, p. split_and!; [exact Hmenus | exact Hphone | exact Hmenu].
Defined.

Lemma post_supplier_menu_refuses_falsy_witness :
  post_supplier_menu integer_of_string (<["todaysstock" := JNum (SafeInteger 0 I)]> samosa_body)
    id_a empty_state
  = (empty_state, BadRequest "All fields are required").
Proof.
  apply post_supplier_menu_refuses_falsy.
  do 5 apply Exists_cons_tl. apply Exists_cons_hd. reflexivity.
Defined.

Lemma api_reachable_ok_witness :
  api_ok (serve hex24 millis integer_of_string (PostVendorCart samosa_body)
            (serve hex24 millis integer_of_string (PostSupplierMenu samosa_body id_a)
               (with_disk ∅ empty_state))).
Proof.
  apply (api_reachable_ok hex24 millis integer_of_string).
  do 2 apply api_reachable_step. apply api_reachable_init.
Defined.

Lemma serve_accounts_stable_witness :
  let a' := sample_account id_a "9800000001" true in
  a' ∈ vendors vendors_state ∨
  (∃ a, a ∈ vendors vendors_state ∧ a' = set_verified a) ∨
  Forall (λ a, _id a ≠ _id a') (vendors vendors_state).
Proof.
  intros a'.
  apply (proj1 (serve_accounts_stable hex24 millis integer_of_string
                  (Core (PostVerifyUser (Some (JStr "vendor")) id_a)) vendors_state) a').
  apply list_elem_of_here.
Defined.

Lemma upload_path_injective_witness :
  1700000000000%Z = 1700000000000%Z ∧ "bill.png" = "bill.png".
Proof.
  apply (upload_path_injective 1700000000000 "bill.png" 1700000000000 "bill.png");
    [lia | lia | reflexivity].
Defined.


(** ** Uploads, from the request to the ledger *)









(** Whatever the upload directory holds, two elements of [req.files] with one
    path give attachments with one content. *)
Lemma encode_file_same_path d f1 f2 a1 a2 :
  path f1 = path f2 →
  encode_file d f1 = Some a1 → encode_file d f2 = Some a2 →
  Grievance.content a1 = Grievance.content a2.
Proof.
  unfold encode_file. intros ->. destruct (d !! path f2); [|done].
  by intros [= <-] [= <-].
Qed.

Section Uploads.
Variable castObjectId : string → option oid.
Variable parseDate : string → option Z.



End Uploads.






